(** * Benchmark and test glue of the TensorFlow reference models

    The repository drives models of an external deep-learning framework:
    [official/bert/run_pretraining.py] starts BERT pre-training,
    [official/bert/benchmark/bert_squad_benchmark.py] times and scores SQuAD
    fine-tuning, and [official/resnet/keras/keras_imagenet_test.py] runs the
    Keras ResNet end to end on synthetic data.

    The Python code is embedded shallowly.  Every function of the repository
    becomes a computation in a state-and-exception monad; every call that
    leaves the repository (TensorFlow, absl, the file system, the clock) is a
    field of an interface record over an abstract world [W].  Orderings of
    calls are read off a trace: the interface is wrapped so that each call
    appends one event to a log carried next to the world. *)

From Stdlib Require Import ZArith String Ascii List Floats Lia Bool.
From stdpp Require Import gmap strings list fin_maps pretty.
Import ListNotations.

#[local] Open Scope string_scope.
#[local] Open Scope Z_scope.
#[local] Set Warnings "-inexact-float".

(** ** Python values, exceptions and the monad *)

(** The exceptions that the modelled code raises itself, and [FrameworkError]
    for whatever an external call raises. *)
Inductive exn :=
| ValueError (msg : string)
| AssertionError
| TypeError
| KeyError (key : string)
| AttributeError (name : string)
| ZeroDivisionError
| OverflowError
| SkipTest (reason : string)
| FrameworkError (what : string).

Inductive outcome (A : Type) :=
| Return (a : A)
| Raise (e : exn).
Arguments Return {A} a.
Arguments Raise {A} e.

(** A computation reads and writes a state [S]; a raised exception keeps the
    state reached so far, as Python keeps the effects already performed. *)
Definition M (S A : Type) : Type := S -> outcome A * S.

Definition ret {S A} (a : A) : M S A := fun s => (Return a, s).

Definition bind {S A B} (c : M S A) (k : A -> M S B) : M S B :=
  fun s =>
    match c s with
    | (Return a, s') => k a s'
    | (Raise e, s') => (Raise e, s')
    end.

Definition raise {S A} (e : exn) : M S A := fun s => (Raise e, s).

Definition gets {S A} (f : S -> A) : M S A := fun s => (Return (f s), s).

Definition modify {S} (f : S -> S) : M S unit := fun s => (Return tt, f s).

Declare Scope py_scope.
Delimit Scope py_scope with py.
Notation "x <- c ;; k" := (bind c (fun x => k))
  (at level 100, c at next level, right associativity) : py_scope.
Notation "c ;;; k" := (bind c (fun _ => k))
  (at level 100, right associativity) : py_scope.
#[local] Open Scope py_scope.

(** [assert cond]. *)
Definition assert_ {S} (cond : bool) : M S unit :=
  if cond then ret tt else raise AssertionError.

(** An external call on a world [W]: it may change the world and may raise. *)
Definition ext (W A : Type) : Type := W -> outcome A * W.

(** Opaque framework objects (datasets, models, resolvers, configurations)
    are known to the glue only by identity. *)
Definition handle : Type := nat.

(** A Python scalar as the flags and the benchmark statistics hold them. *)
Inductive pyval :=
| PyNone
| PyBool (b : bool)
| PyInt (z : Z)
| PyFloat (f : float)
| PyStr (s : string).

(** Truth value of [x] in [if x] / [not x]. *)
Definition truthy_str (s : string) : bool :=
  match s with EmptyString => false | String _ _ => true end.

Definition truthy_opt_str (o : option string) : bool :=
  match o with None => false | Some s => truthy_str s end.

(** [s.split(sep)] for a one-character separator. *)
Fixpoint split_on (sep : ascii) (s : string) : list string :=
  match s with
  | EmptyString => [EmptyString]
  | String c s' =>
      if Ascii.eqb c sep then EmptyString :: split_on sep s'
      else match split_on sep s' with
           | [] => [String c EmptyString]
           | w :: ws => String c w :: ws
           end
  end.

(** [s.endswith('/')]. *)
Fixpoint ends_with_slash (s : string) : bool :=
  match s with
  | EmptyString => false
  | String c EmptyString => Ascii.eqb c "/"%char
  | String _ s' => ends_with_slash s'
  end.

(** [os.path.join(a, b)] of posixpath, for two components. *)
Definition os_path_join (a b : string) : string :=
  if String.prefix "/" b then b
  else if negb (truthy_str a) || ends_with_slash a then a ++ b
  else a ++ "/" ++ b.

(** Running [n] times the same computation, keeping the last result. *)
Fixpoint repeat_call {S A} (c : M S A) (n : nat) (last : A) : M S A :=
  match n with
  | O => ret last
  | S n' => x <- c ;; repeat_call c n' x
  end.

(** ** Integer true division

    [int(a / b)] on Python integers: [a / b] is the binary64 number nearest
    to the exact quotient (ties to even) and [int] drops its fraction. *)

(** Quotient of two positive integers rounded to the nearest integer, ties
    to even. *)
Definition div_half_even (n d : Z) : Z :=
  let q := n / d in
  let r := n mod d in
  match (2 * r) ?= d with
  | Lt => q
  | Gt => q + 1
  | Eq => if Z.even q then q else q + 1
  end.

(** The scaled significand [m] and exponent [e] with [2^52 <= m <= 2^53] and
    [m * 2^e] nearest to [n / d], for positive [n] and [d]. *)
Definition significand (n d : Z) : Z * Z :=
  let e0 := Z.log2 n - Z.log2 d - 52 in
  let scaled (e : Z) := if 0 <=? e then (n, d * 2 ^ e) else (n * 2 ^ (- e), d) in
  let e := let '(n', d') := scaled e0 in
           if n' <? d' * 2 ^ 52 then e0 - 1 else e0 in
  let '(n', d') := scaled e in
  (div_half_even n' d', e).

Definition int_of_truediv (a b : Z) : outcome Z :=
  if b =? 0 then Raise ZeroDivisionError
  else if a =? 0 then Return 0
  else
    let '(m, e) := significand (Z.abs a) (Z.abs b) in
    if 1024 <=? Z.log2 m + e then Raise OverflowError
    else
      let mag := if 0 <=? e then m * 2 ^ e else m / 2 ^ (- e) in
      Return (Z.sgn a * Z.sgn b * mag).

(** [a % b] on Python integers (the sign follows the divisor). *)
Definition py_mod (a b : Z) : outcome Z :=
  if b =? 0 then Raise ZeroDivisionError else Return (a mod b).

Definition lift {S A} (o : outcome A) : M S A := fun s => (o, s).

(** ** Traces

    A world paired with the log of the external calls made so far.  The
    wrapped call behaves as the call it wraps and appends its event, whether
    it returns or raises. *)
Definition logged {E W A} (e : E) (f : ext W A) : ext (W * list E) A :=
  fun wl =>
    let '(r, w) := f (fst wl) in
    (r, (w, (snd wl ++ [e])%list)).

(** A callback handed to the framework runs on the bare world: the calls it
    makes there are the framework's business and stay out of the log. *)
Definition untraced {E W A} (c : M (W * list E) A) : M W A :=
  fun w =>
    let '(r, wl) := c (w, []) in
    (r, fst wl).

(** ** [official/bert/run_pretraining.py] *)

Module RunPretraining.

(** The flags the module defines, with the types of their [DEFINE_*] calls;
    a string flag whose default is [None] is an [option]. *)
Record Flags := {
  input_files : option string;
  bert_config_file : option string;
  model_dir : option string;
  tpu : string;
  strategy_type : string;
  max_seq_length : Z;
  max_predictions_per_seq : Z;
  train_batch_size : Z;
  num_train_epochs : Z;
  num_steps_per_epoch : Z;
  learning_rate : float;
  warmup_steps : float
}.

Definition default_flags : Flags := {|
  input_files := None;
  bert_config_file := None;
  model_dir := None;
  tpu := "";
  strategy_type := "mirror";
  max_seq_length := 128;
  max_predictions_per_seq := 20;
  train_batch_size := 32;
  num_train_epochs := 3;
  num_steps_per_epoch := 1000;
  learning_rate := 5e-5;
  warmup_steps := 10000
|}.

Definition set_model_dir (d : option string) (fl : Flags) : Flags := {|
  input_files := input_files fl;
  bert_config_file := bert_config_file fl;
  model_dir := d;
  tpu := tpu fl;
  strategy_type := strategy_type fl;
  max_seq_length := max_seq_length fl;
  max_predictions_per_seq := max_predictions_per_seq fl;
  train_batch_size := train_batch_size fl;
  num_train_epochs := num_train_epochs fl;
  num_steps_per_epoch := num_steps_per_epoch fl;
  learning_rate := learning_rate fl;
  warmup_steps := warmup_steps fl
|}.

(** A distribution strategy object: its class, which [isinstance] tests, and
    its [num_replicas_in_sync]. *)
Inductive strategy_class :=
| MirroredStrategy
| TPUStrategy
| OtherStrategy.

Record Strategy := {
  cls : strategy_class;
  num_replicas_in_sync : Z
}.

Definition is_TPUStrategy (s : Strategy) : bool :=
  match cls s with TPUStrategy => true | _ => false end.

(** What [get_pretrain_input_data] returns: the function [_dataset_fn]
    itself, or the dataset that calling it produced. *)
Inductive pretrain_input (W : Type) :=
| DatasetFn (f : M W handle)
| DatasetValue (d : handle).
Arguments DatasetFn {W} f.
Arguments DatasetValue {W} d.

(** The arguments of [model_training_utils.run_customized_training_loop]. *)
Record loop_args (W : Type) := {
  la_strategy : Strategy;
  la_model_fn : M W (handle * handle);
  la_loss_scale : float;
  la_model_dir : option string;
  la_train_input_fn : M W (pretrain_input W);
  la_steps_per_epoch : Z;
  la_epochs : Z;
  la_use_remote_tpu : pyval
}.
Arguments la_strategy {W} _.
Arguments la_model_fn {W} _.
Arguments la_loss_scale {W} _.
Arguments la_model_dir {W} _.
Arguments la_train_input_fn {W} _.
Arguments la_steps_per_epoch {W} _.
Arguments la_epochs {W} _.
Arguments la_use_remote_tpu {W} _.

(** Everything the module calls outside the file.  A strategy constructor
    yields the replica count of the object it builds. *)
Record TF (W : Type) := {
  (* tf.version.VERSION *)
  tf_version : W -> string;
  (* tf.distribute.MirroredStrategy() *)
  MirroredStrategy_new : ext W Z;
  (* tpu_lib.tpu_initialize(tpu_address) *)
  tpu_initialize : string -> ext W handle;
  (* tf.distribute.experimental.TPUStrategy(cluster_resolver) *)
  TPUStrategy_new : handle -> ext W Z;
  (* print(message, number) *)
  print : string -> Z -> ext W unit;
  (* modeling.BertConfig.from_json_file(path) *)
  BertConfig_from_json_file : option string -> ext W handle;
  (* logging.info(message) *)
  logging_info : string -> ext W unit;
  (* tf.io.gfile.glob(pattern) *)
  gfile_glob : string -> ext W (list string);
  (* input_pipeline.create_pretrain_dataset(files, seq_length,
     max_predictions_per_seq, batch_size) *)
  create_pretrain_dataset : list string -> Z -> Z -> Z -> ext W handle;
  (* bert_models.pretrain_model(config, seq_length, max_predictions) *)
  pretrain_model : handle -> Z -> Z -> ext W (handle * handle);
  (* optimization.create_optimizer(lr, num_train_steps, warmup_steps) *)
  create_optimizer : float -> Z -> float -> ext W handle;
  (* pretrain_model.optimizer = optimizer *)
  set_optimizer : handle -> handle -> ext W unit;
  (* model_training_utils.run_customized_training_loop(...) *)
  run_customized_training_loop : loop_args W -> ext W handle
}.
Arguments tf_version {W} _.
Arguments MirroredStrategy_new {W} _.
Arguments tpu_initialize {W} _.
Arguments TPUStrategy_new {W} _.
Arguments print {W} _.
Arguments BertConfig_from_json_file {W} _.
Arguments logging_info {W} _.
Arguments gfile_glob {W} _.
Arguments create_pretrain_dataset {W} _.
Arguments pretrain_model {W} _.
Arguments create_optimizer {W} _.
Arguments set_optimizer {W} _.
Arguments run_customized_training_loop {W} _.

(** The global [FLAGS] next to the world. *)
Record St (W : Type) := {
  flags : Flags;
  world : W
}.
Arguments flags {W} _.
Arguments world {W} _.

Section Program.

Context {W : Type} (tf : TF W).

(** An external call made from code that also sees [FLAGS]. *)
Definition call {A} (f : ext W A) : M (St W) A :=
  fun s =>
    let '(r, w) := f (world s) in
    (r, {| flags := flags s; world := w |}).

Fixpoint glob_all (patterns : list string) (input_files : list string)
  : M W (list string) :=
  match patterns with
  | [] => ret input_files
  | input_pattern :: rest =>
      found <- gfile_glob tf input_pattern ;;
      glob_all rest (input_files ++ found)
  end.

(** The inner function [_dataset_fn] of [get_pretrain_input_data], closed
    over the variables it reads. *)
Definition _dataset_fn (input_file_pattern : option string)
    (seq_length max_predictions_per_seq batch_size : Z) : M W handle :=
  match input_file_pattern with
  | None => raise (AttributeError "split")
  | Some pattern =>
      input_files <- glob_all (split_on ","%char pattern) [] ;;
      create_pretrain_dataset tf input_files seq_length
        max_predictions_per_seq batch_size
  end.

Definition get_pretrain_input_data (input_file_pattern : option string)
    (seq_length max_predictions_per_seq batch_size : Z)
    (strategy : Strategy) : M W (pretrain_input W) :=
  let use_dataset_fn := is_TPUStrategy strategy in
  batch_size <-
    (if use_dataset_fn then
       r <- lift (py_mod batch_size (num_replicas_in_sync strategy)) ;;
       (if negb (r =? 0) then
          raise (ValueError
            ("Batch size must be divisible by number of replicas : "
               ++ pretty (num_replicas_in_sync strategy)))
        else ret tt) ;;;
       lift (int_of_truediv batch_size (num_replicas_in_sync strategy))
     else ret batch_size) ;;
  let dataset_fn :=
    _dataset_fn input_file_pattern seq_length max_predictions_per_seq
      batch_size in
  if use_dataset_fn then ret (DatasetFn dataset_fn)
  else d <- dataset_fn ;; ret (DatasetValue d).

(** [get_loss_fn(loss_scale)] returns a closure that only holds the scale. *)
Definition get_loss_fn (loss_scale : float) : float := loss_scale.

Definition run_customized_training (strategy : Strategy)
    (bert_config : handle) (max_seq_length max_predictions_per_seq : Z)
    (model_dir : option string) (steps_per_epoch epochs : Z)
    (initial_lr warmup_steps : float) (input_files : option string)
    (train_batch_size : Z) (use_remote_tpu : pyval) : M W handle :=
  let train_input_fn :=
    get_pretrain_input_data input_files max_seq_length
      max_predictions_per_seq train_batch_size strategy in
  let _get_pretrain_model : M W (handle * handle) :=
    models <- pretrain_model tf bert_config max_seq_length
                max_predictions_per_seq ;;
    optimizer <- create_optimizer tf initial_lr (steps_per_epoch * epochs)
                   warmup_steps ;;
    set_optimizer tf (fst models) optimizer ;;;
    ret models in
  run_customized_training_loop tf {|
    la_strategy := strategy;
    la_model_fn := _get_pretrain_model;
    la_loss_scale := get_loss_fn 1.0;
    la_model_dir := model_dir;
    la_train_input_fn := train_input_fn;
    la_steps_per_epoch := steps_per_epoch;
    la_epochs := epochs;
    la_use_remote_tpu := use_remote_tpu
  |}.

Definition run_bert_pretrain (strategy : option Strategy)
  : M (St W) handle :=
  fl <- gets flags ;;
  bert_config <- call (BertConfig_from_json_file tf (bert_config_file fl)) ;;
  match strategy with
  | None => raise (ValueError "Distribution strategy is not specified.")
  | Some strategy =>
      call (logging_info tf
        "Training using customized training loop TF 2.0 with distrubutedstrategy.") ;;;
      let use_remote_tpu :=
        if String.eqb (strategy_type fl) "tpu" then PyStr (tpu fl)
        else PyBool false in
      call (run_customized_training strategy bert_config
              (max_seq_length fl) (max_predictions_per_seq fl)
              (model_dir fl) (num_steps_per_epoch fl) (num_train_epochs fl)
              (learning_rate fl) (warmup_steps fl) (input_files fl)
              (train_batch_size fl) use_remote_tpu)
  end.

Definition main : M (St W) handle :=
  version <- gets (fun s => tf_version tf (world s)) ;;
  assert_ (String.prefix "2." version) ;;;
  fl <- gets flags ;;
  (if negb (truthy_opt_str (model_dir fl)) then
     modify (fun s => {| flags := set_model_dir (Some "/tmp/bert20/") (flags s);
                         world := world s |})
   else ret tt) ;;;
  fl <- gets flags ;;
  strategy <-
    (if String.eqb (strategy_type fl) "mirror" then
       n <- call (MirroredStrategy_new tf) ;;
       ret (Some {| cls := MirroredStrategy; num_replicas_in_sync := n |})
     else if String.eqb (strategy_type fl) "tpu" then
       cluster_resolver <- call (tpu_initialize tf (tpu fl)) ;;
       n <- call (TPUStrategy_new tf cluster_resolver) ;;
       ret (Some {| cls := TPUStrategy; num_replicas_in_sync := n |})
     else
       raise (ValueError
         ("The distribution strategy type is not supported: "
            ++ strategy_type fl))) ;;
  match strategy with
  | Some s =>
      call (print tf "***** Number of cores used : " (num_replicas_in_sync s))
  | None => ret tt
  end ;;;
  run_bert_pretrain strategy.

End Program.

(** *** The trace of a run *)

Inductive event :=
| EvMirroredStrategy
| EvTpuInitialize (tpu_address : string)
| EvTPUStrategy (cluster_resolver : handle)
| EvPrint (msg : string) (n : Z)
| EvBertConfig (path : option string)
| EvLoggingInfo (msg : string)
| EvGlob (pattern : string)
| EvCreatePretrainDataset (files : list string)
    (seq_length max_predictions_per_seq batch_size : Z)
| EvPretrainModel (bert_config : handle)
    (seq_length max_predictions_per_seq : Z)
| EvCreateOptimizer (initial_lr : float) (num_train_steps : Z)
    (warmup_steps : float)
| EvSetOptimizer (model optimizer : handle)
| EvTrainingLoop (strategy : Strategy) (model_dir : option string)
    (steps_per_epoch epochs : Z) (use_remote_tpu : pyval).

Definition untraced_input {W} (i : pretrain_input (W * list event))
  : pretrain_input W :=
  match i with
  | DatasetFn f => DatasetFn (untraced f)
  | DatasetValue d => DatasetValue d
  end.

Definition untraced_args {W} (a : loop_args (W * list event)) : loop_args W := {|
  la_strategy := la_strategy a;
  la_model_fn := untraced (la_model_fn a);
  la_loss_scale := la_loss_scale a;
  la_model_dir := la_model_dir a;
  la_train_input_fn :=
    (fun w =>
       let '(r, w') := untraced (la_train_input_fn a) w in
       (match r with
        | Return i => Return (untraced_input i)
        | Raise e => Raise e
        end, w'));
  la_steps_per_epoch := la_steps_per_epoch a;
  la_epochs := la_epochs a;
  la_use_remote_tpu := la_use_remote_tpu a
|}.

Definition traced {W} (tf : TF W) : TF (W * list event) := {|
  tf_version := fun wl => tf_version tf (fst wl);
  MirroredStrategy_new := logged EvMirroredStrategy (MirroredStrategy_new tf);
  tpu_initialize := fun a => logged (EvTpuInitialize a) (tpu_initialize tf a);
  TPUStrategy_new := fun r => logged (EvTPUStrategy r) (TPUStrategy_new tf r);
  print := fun m n => logged (EvPrint m n) (print tf m n);
  BertConfig_from_json_file :=
    fun p => logged (EvBertConfig p) (BertConfig_from_json_file tf p);
  logging_info := fun m => logged (EvLoggingInfo m) (logging_info tf m);
  gfile_glob := fun p => logged (EvGlob p) (gfile_glob tf p);
  create_pretrain_dataset :=
    fun fs l p b =>
      logged (EvCreatePretrainDataset fs l p b)
        (create_pretrain_dataset tf fs l p b);
  pretrain_model :=
    fun c l p => logged (EvPretrainModel c l p) (pretrain_model tf c l p);
  create_optimizer :=
    fun lr n wu => logged (EvCreateOptimizer lr n wu) (create_optimizer tf lr n wu);
  set_optimizer := fun m o => logged (EvSetOptimizer m o) (set_optimizer tf m o);
  run_customized_training_loop :=
    fun a =>
      logged
        (EvTrainingLoop (la_strategy a) (la_model_dir a)
           (la_steps_per_epoch a) (la_epochs a) (la_use_remote_tpu a))
        (run_customized_training_loop tf (untraced_args a))
|}.

(** The log of a whole run of [main], started with an empty log. *)
Definition main_run {W} (tf : TF W) (fl : Flags) (w : W)
  : outcome handle * list event :=
  let '(r, s) := main (traced tf) {| flags := fl; world := (w, []) |} in
  (r, snd (world s)).

(** Whether an event starts training or builds a strategy of another class
    than [c]. *)
Definition consistent_with (c : strategy_class) (e : event) : bool :=
  match e with
  | EvMirroredStrategy =>
      match c with MirroredStrategy => true | _ => false end
  | EvTpuInitialize _ | EvTPUStrategy _ =>
      match c with TPUStrategy => true | _ => false end
  | EvTrainingLoop s _ _ _ _ =>
      match c, cls s with
      | MirroredStrategy, MirroredStrategy => true
      | TPUStrategy, TPUStrategy => true
      | OtherStrategy, OtherStrategy => true
      | _, _ => false
      end
  | _ => true
  end.

(** *** A framework double

    A world without devices or files: every call returns at once.  A glob
    finds the pattern itself, a strategy has [replicas] replicas, and the
    framework reports the version [version]. *)
Definition double (version : string) (replicas : Z) : TF unit := {|
  tf_version := fun _ => version;
  MirroredStrategy_new := fun w => (Return replicas, w);
  tpu_initialize := fun _ w => (Return 0%nat, w);
  TPUStrategy_new := fun _ w => (Return replicas, w);
  print := fun _ _ w => (Return tt, w);
  BertConfig_from_json_file := fun _ w => (Return 1%nat, w);
  logging_info := fun _ w => (Return tt, w);
  gfile_glob := fun p w => (Return [p], w);
  create_pretrain_dataset := fun _ _ _ _ w => (Return 2%nat, w);
  pretrain_model := fun _ _ _ w => (Return (3%nat, 4%nat), w);
  create_optimizer := fun _ _ _ w => (Return 5%nat, w);
  set_optimizer := fun _ _ w => (Return tt, w);
  run_customized_training_loop := fun _ w => (Return 6%nat, w)
|}.

(** The default flags with another [--strategy_type]. *)
Definition with_strategy_type (t : string) : Flags := {|
  input_files := input_files default_flags;
  bert_config_file := bert_config_file default_flags;
  model_dir := model_dir default_flags;
  tpu := tpu default_flags;
  strategy_type := t;
  max_seq_length := max_seq_length default_flags;
  max_predictions_per_seq := max_predictions_per_seq default_flags;
  train_batch_size := train_batch_size default_flags;
  num_train_epochs := num_train_epochs default_flags;
  num_steps_per_epoch := num_steps_per_epoch default_flags;
  learning_rate := learning_rate default_flags;
  warmup_steps := warmup_steps default_flags
|}.

(** *** Further vocabulary for statements about a run *)

(** [sep.join(pieces)]. *)
Fixpoint join_with (sep : string) (pieces : list string) : string :=
  match pieces with
  | [] => ""
  | [piece] => piece
  | piece :: rest => piece ++ sep ++ join_with sep rest
  end.

(** Whether the character occurs in the string. *)
Fixpoint occurs (c : ascii) (s : string) : bool :=
  match s with
  | EmptyString => false
  | String c' s' => Ascii.eqb c' c || occurs c s'
  end.

(** The directory that [main] trains into: [FLAGS.model_dir], or
    ['/tmp/bert20/'] when the flag is [None] or empty. *)
Definition effective_model_dir (fl : Flags) : string :=
  match model_dir fl with
  | Some d => if truthy_str d then d else "/tmp/bert20/"
  | None => "/tmp/bert20/"
  end.

(** The value of [use_remote_tpu] that [run_bert_pretrain] computes. *)
Definition remote_tpu (fl : Flags) : pyval :=
  if String.eqb (strategy_type fl) "tpu" then PyStr (tpu fl) else PyBool false.

(** What a call of a run of [main] was given, read against the flags of the
    run. *)
Definition wired (fl : Flags) (e : event) : Prop :=
  match e with
  | EvTpuInitialize address => address = tpu fl
  | EvBertConfig path => path = bert_config_file fl
  | EvTrainingLoop _ dir steps epochs remote =>
      dir = Some (effective_model_dir fl)
      /\ steps = num_steps_per_epoch fl
      /\ epochs = num_train_epochs fl
      /\ remote = remote_tpu fl
  | _ => True
  end.

(** Every training loop runs under a strategy whose replica count is the
    number that was printed before ([printed]). *)
Fixpoint cores_reported (printed : option Z) (tr : list event) : bool :=
  match tr with
  | [] => true
  | EvPrint _ n :: tr' => cores_reported (Some n) tr'
  | EvTrainingLoop s _ _ _ _ :: tr' =>
      match printed with
      | Some n => num_replicas_in_sync s =? n
      | None => false
      end && cores_reported printed tr'
  | _ :: tr' => cores_reported printed tr'
  end.

(** The kinds of calls, for statements about their order. *)
Inductive kind :=
| KMirrored
| KTpuInitialize
| KTPU
| KPrint
| KConfig
| KLogging
| KGlob
| KDataset
| KModel
| KOptimizer
| KSetOptimizer
| KLoop.

Definition kind_of (e : event) : kind :=
  match e with
  | EvMirroredStrategy => KMirrored
  | EvTpuInitialize _ => KTpuInitialize
  | EvTPUStrategy _ => KTPU
  | EvPrint _ _ => KPrint
  | EvBertConfig _ => KConfig
  | EvLoggingInfo _ => KLogging
  | EvGlob _ => KGlob
  | EvCreatePretrainDataset _ _ _ _ => KDataset
  | EvPretrainModel _ _ _ => KModel
  | EvCreateOptimizer _ _ _ => KOptimizer
  | EvSetOptimizer _ _ => KSetOptimizer
  | EvTrainingLoop _ _ _ _ _ => KLoop
  end.

Definition kind_eqb (a b : kind) : bool :=
  match a, b with
  | KMirrored, KMirrored | KTpuInitialize, KTpuInitialize | KTPU, KTPU
  | KPrint, KPrint | KConfig, KConfig | KLogging, KLogging | KGlob, KGlob
  | KDataset, KDataset | KModel, KModel | KOptimizer, KOptimizer
  | KSetOptimizer, KSetOptimizer | KLoop, KLoop => true
  | _, _ => false
  end.

Fixpoint is_prefix (l full : list kind) : bool :=
  match l, full with
  | [], _ => true
  | a :: l', b :: full' => kind_eqb a b && is_prefix l' full'
  | _ :: _, [] => false
  end.

(** The calls of a whole run of [main], by strategy type. *)
Definition main_order (strategy_type : string) : list kind :=
  if String.eqb strategy_type "mirror" then
    [KMirrored; KPrint; KConfig; KLogging; KLoop]
  else if String.eqb strategy_type "tpu" then
    [KTpuInitialize; KTPU; KPrint; KConfig; KLogging; KLoop]
  else [].

End RunPretraining.

(** ** [official/bert/benchmark/bert_squad_benchmark.py] *)

Module SquadBenchmark.

Definition PRETRAINED_CHECKPOINT_PATH : string :=
  "gs://cloud-tpu-checkpoints/bert/tf_20/uncased_L-24_H-1024_A-16/bert_model.ckpt".
Definition SQUAD_TRAIN_DATA_PATH : string :=
  "gs://tf-perfzero-data/bert/squad/squad_train.tf_record".
Definition SQUAD_PREDICT_FILE : string :=
  "gs://tf-perfzero-data/bert/squad/dev-v1.1.json".
Definition SQUAD_VOCAB_FILE : string :=
  "gs://tf-perfzero-data/bert/squad/vocab.txt".
Definition SQUAD_SMALL_INPUT_META_DATA_PATH : string :=
  "gs://tf-perfzero-data/bert/squad/squad_small_meta_data".
Definition SQUAD_FULL_INPUT_META_DATA_PATH : string :=
  "gs://tf-perfzero-data/bert/squad/squad_full_meta_data".
Definition MODEL_CONFIG_FILE_PATH : string :=
  "gs://cloud-tpu-checkpoints/bert/tf_20/uncased_L-24_H-1024_A-16/bert_config".

(** A decoded JSON document. *)
#[local] Set Warnings "-register-all".
Inductive json :=
| JNull
| JBool (b : bool)
| JInt (z : Z)
| JFloat (f : float)
| JStr (s : string)
| JArr (items : list json)
| JObj (entries : gmap string json).
#[local] Set Warnings "register-all".

(** [obj[key]] on a decoded document. *)
Definition json_getitem (obj : json) (key : string) : outcome json :=
  match obj with
  | JObj entries =>
      match entries !! key with
      | Some v => Return v
      | None => Raise (KeyError key)
      end
  | _ => Raise TypeError
  end.

(** [obj[key] = v] on a decoded document. *)
Definition json_setitem (obj : json) (key : string) (v : json) : outcome json :=
  match obj with
  | JObj entries => Return (JObj (<[key := v]> entries))
  | _ => Raise TypeError
  end.

(** The absl flag registry: the flags are defined by [run_squad], so the
    module only sees names and values. *)
Abbreviation Flags := (gmap string pyval).

(** The attributes of a benchmark object that the module reads or writes. *)
Record Self := {
  num_gpus : option Z;
  eval_metrics : option float;
  timer_callback : option handle
}.

(** A reference to a dictionary in the store. *)
Definition ref : Type := nat.

Record St (W : Type) := {
  flags : Flags;
  self : Self;
  heap : list json;
  world : W
}.
Arguments flags {W} _.
Arguments self {W} _.
Arguments heap {W} _.
Arguments world {W} _.

(** What the module calls outside the file: the clock, the file system, the
    JSON and UTF-8 decoders, [distribution_utils], [run_squad],
    [squad_evaluate_v1_1] and the base class [BertBenchmarkBase].  A call
    into [run_squad] or into the base class reads [FLAGS]; the ones that run
    a model also return [FLAGS] as they leave them. *)
Record Framework (W : Type) := {
  (* time.time() *)
  time_time : W -> float * W;
  (* tf.io.gfile.GFile(path, mode).read() *)
  gfile_read : string -> string -> ext W string;
  (* bytes.decode('utf-8') *)
  utf8_decode : string -> outcome string;
  (* json.loads(text) *)
  json_loads : string -> outcome json;
  (* distribution_utils.get_distribution_strategy(distribution_strategy,
     num_gpus) *)
  get_distribution_strategy : string -> Z -> ext W handle;
  (* run_squad.train_squad(strategy, input_meta_data, custom_callbacks) *)
  train_squad : Flags -> handle -> json -> list handle -> ext W Flags;
  (* run_squad.predict_squad(strategy, input_meta_data) *)
  predict_squad : Flags -> handle -> json -> ext W Flags;
  (* squad_evaluate_v1_1.evaluate(dataset, predictions) *)
  evaluate : json -> json -> outcome (gmap string float);
  (* BertBenchmarkBase._setup(): the flags and the timer callback it
     leaves *)
  base_setup : Flags -> ext W (Flags * handle);
  (* BertBenchmarkBase._get_model_dir(folder_name) *)
  get_model_dir : string -> ext W string;
  (* BertBenchmarkBase._report_benchmark(stats, wall_time_sec,
     min_accuracy, max_accuracy) *)
  report_benchmark : Flags -> json -> float -> pyval -> pyval -> ext W unit
}.
Arguments time_time {W} _.
Arguments gfile_read {W} _.
Arguments utf8_decode {W} _.
Arguments json_loads {W} _.
Arguments get_distribution_strategy {W} _.
Arguments train_squad {W} _.
Arguments predict_squad {W} _.
Arguments evaluate {W} _.
Arguments base_setup {W} _.
Arguments get_model_dir {W} _.
Arguments report_benchmark {W} _.

Section Program.

Context {W : Type} (fw : Framework W).

Definition call {A} (f : ext W A) : M (St W) A :=
  fun s =>
    let '(r, w) := f (world s) in
    (r, {| flags := flags s; self := self s; heap := heap s; world := w |}).

Definition set_flags (fl : Flags) : M (St W) unit :=
  modify (fun s =>
    {| flags := fl; self := self s; heap := heap s; world := world s |}).

Definition set_self (o : Self) : M (St W) unit :=
  modify (fun s =>
    {| flags := flags s; self := o; heap := heap s; world := world s |}).

(** [FLAGS.name = v]. *)
Definition set_flag (name : string) (v : pyval) : M (St W) unit :=
  fl <- gets flags ;;
  set_flags (<[name := v]> fl).

(** [FLAGS.name]. *)
Definition get_flag (name : string) : M (St W) pyval :=
  fl <- gets flags ;;
  match fl !! name with
  | Some v => ret v
  | None => raise (AttributeError name)
  end.

(** A flag value used as a file name. *)
Definition as_path (v : pyval) : M (St W) string :=
  match v with
  | PyStr s => ret s
  | _ => raise TypeError
  end.

(** [self.name] for an attribute that may not have been assigned yet. *)
Definition get_attr {A} (name : string) (field : Self -> option A)
  : M (St W) A :=
  o <- gets self ;;
  match field o with
  | Some v => ret v
  | None => raise (AttributeError name)
  end.

(** A freshly decoded document becomes a new object of the store. *)
Definition new_object (v : json) : M (St W) ref :=
  fun s =>
    (Return (length (heap s)),
     {| flags := flags s; self := self s; heap := (heap s ++ [v])%list;
        world := world s |}).

Definition deref (r : ref) : M (St W) json :=
  h <- gets heap ;;
  match h !! r with
  | Some v => ret v
  | None => raise TypeError
  end.

(** [obj[key] = v] on an object of the store: the object is changed in
    place. *)
Definition setitem (r : ref) (key : string) (v : json) : M (St W) unit :=
  obj <- deref r ;;
  obj' <- lift (json_setitem obj key v) ;;
  modify (fun s =>
    {| flags := flags s; self := self s; heap := <[r := obj']> (heap s);
       world := world s |}).

(** The decorator [@flagsaver.flagsaver]: the flag values are saved before
    the call and put back after it, whether it returns or raises. *)
Definition flagsaver {A} (body : M (St W) A) : M (St W) A :=
  fun s =>
    let saved := flags s in
    let '(r, s') := body s in
    (r, {| flags := saved; self := self s'; heap := heap s';
           world := world s' |}).

(** [json.loads(bytes.decode('utf-8'))]. *)
Definition decode_document (bytes : string) : outcome json :=
  match utf8_decode fw bytes with
  | Return text => json_loads fw text
  | Raise e => Raise e
  end.

Definition _read_training_summary_from_file : M (St W) ref :=
  model_dir <- get_flag "model_dir" ;;
  model_dir <- as_path model_dir ;;
  let summary_path := os_path_join model_dir "training_summary.txt" in
  bytes <- call (gfile_read fw summary_path "rb") ;;
  text <- lift (utf8_decode fw bytes) ;;
  doc <- lift (json_loads fw text) ;;
  new_object doc.

Definition _read_input_meta_data_from_file : M (St W) ref :=
  path <- get_flag "input_meta_data_path" ;;
  path <- as_path path ;;
  bytes <- call (gfile_read fw path "rb") ;;
  text <- lift (utf8_decode fw bytes) ;;
  doc <- lift (json_loads fw text) ;;
  new_object doc.

Definition _read_predictions_dataset_from_file : M (St W) json :=
  text <- call (gfile_read fw SQUAD_PREDICT_FILE "r") ;;
  doc <- lift (json_loads fw text) ;;
  dataset_json <- new_object doc ;;
  obj <- deref dataset_json ;;
  lift (json_getitem obj "data").

Definition _read_predictions_from_file : M (St W) ref :=
  model_dir <- get_flag "model_dir" ;;
  model_dir <- as_path model_dir ;;
  let predictions_file := os_path_join model_dir "predictions.json" in
  text <- call (gfile_read fw predictions_file "r") ;;
  doc <- lift (json_loads fw text) ;;
  new_object doc.

Definition _get_distribution_strategy : M (St W) handle :=
  n <- get_attr "num_gpus" num_gpus ;;
  call (get_distribution_strategy fw "mirrored" n).

Definition _train_squad : M (St W) unit :=
  flagsaver (
    input_meta_data <- _read_input_meta_data_from_file ;;
    strategy <- _get_distribution_strategy ;;
    timer <- get_attr "timer_callback" timer_callback ;;
    meta <- deref input_meta_data ;;
    fl <- gets flags ;;
    fl' <- call (train_squad fw fl strategy meta [timer]) ;;
    set_flags fl').

Definition _evaluate_squad : M (St W) unit :=
  flagsaver (
    input_meta_data <- _read_input_meta_data_from_file ;;
    strategy <- _get_distribution_strategy ;;
    meta <- deref input_meta_data ;;
    fl <- gets flags ;;
    fl' <- call (predict_squad fw fl strategy meta) ;;
    set_flags fl' ;;;
    dataset <- _read_predictions_dataset_from_file ;;
    predictions <- _read_predictions_from_file ;;
    predictions <- deref predictions ;;
    metrics <- lift (evaluate fw dataset predictions) ;;
    match metrics !! "f1" with
    | None => raise (KeyError "f1")
    | Some f1 =>
        o <- gets self ;;
        set_self {| num_gpus := num_gpus o; eval_metrics := Some f1;
                    timer_callback := timer_callback o |}
    end).

(** [BertBenchmarkBase._setup], then the flags of the class. *)
Definition base__setup : M (St W) unit :=
  fl <- gets flags ;;
  r <- call (base_setup fw fl) ;;
  set_flags (fst r) ;;;
  o <- gets self ;;
  set_self {| num_gpus := num_gpus o; eval_metrics := eval_metrics o;
              timer_callback := Some (snd r) |}.

Definition _get_model_dir (folder_name : string) : M (St W) string :=
  call (get_model_dir fw folder_name).

Definition _report_benchmark (stats : ref) (wall_time_sec : float)
    (min_accuracy max_accuracy : pyval) : M (St W) unit :=
  fl <- gets flags ;;
  content <- deref stats ;;
  call (report_benchmark fw fl content wall_time_sec min_accuracy max_accuracy).

Definition time : M (St W) float :=
  fun s =>
    let '(t, w) := time_time fw (world s) in
    (Return t,
     {| flags := flags s; self := self s; heap := heap s; world := w |}).

Definition set_num_gpus (n : Z) : M (St W) unit :=
  o <- gets self ;;
  set_self {| num_gpus := Some n; eval_metrics := eval_metrics o;
              timer_callback := timer_callback o |}.

(** *** [BertSquadBenchmarkReal] *)

Definition Real_setup : M (St W) unit :=
  base__setup ;;;
  set_flag "train_data_path" (PyStr SQUAD_TRAIN_DATA_PATH) ;;;
  set_flag "predict_file" (PyStr SQUAD_PREDICT_FILE) ;;;
  set_flag "vocab_file" (PyStr SQUAD_VOCAB_FILE) ;;;
  set_flag "input_meta_data_path" (PyStr SQUAD_SMALL_INPUT_META_DATA_PATH) ;;;
  set_flag "bert_config_file" (PyStr MODEL_CONFIG_FILE_PATH) ;;;
  set_flag "num_train_epochs" (PyInt 1).

Definition Real_run_and_report_benchmark : M (St W) unit :=
  start_time_sec <- time ;;
  _train_squad ;;;
  now <- time ;;
  let wall_time_sec := PrimFloat.sub now start_time_sec in
  summary <- _read_training_summary_from_file ;;
  _report_benchmark summary wall_time_sec (PyInt 0) (PyInt 1).

Definition Real_benchmark_1_gpu : M (St W) unit :=
  Real_setup ;;;
  set_num_gpus 1 ;;;
  d <- _get_model_dir "benchmark_1_gpu_squad" ;;
  set_flag "model_dir" (PyStr d) ;;;
  set_flag "train_batch_size" (PyInt 4) ;;;
  Real_run_and_report_benchmark.

Definition Real_benchmark_2_gpu : M (St W) unit :=
  Real_setup ;;;
  set_num_gpus 2 ;;;
  d <- _get_model_dir "benchmark_2_gpu_squad" ;;
  set_flag "model_dir" (PyStr d) ;;;
  set_flag "train_batch_size" (PyInt 8) ;;;
  Real_run_and_report_benchmark.

Definition Real_benchmark_4_gpu : M (St W) unit :=
  Real_setup ;;;
  set_num_gpus 4 ;;;
  d <- _get_model_dir "benchmark_4_gpu_squad" ;;
  set_flag "model_dir" (PyStr d) ;;;
  set_flag "train_batch_size" (PyInt 16) ;;;
  Real_run_and_report_benchmark.

Definition Real_benchmark_8_gpu : M (St W) unit :=
  Real_setup ;;;
  set_num_gpus 8 ;;;
  d <- _get_model_dir "benchmark_8_gpu_squad" ;;
  set_flag "model_dir" (PyStr d) ;;;
  set_flag "train_batch_size" (PyInt 32) ;;;
  Real_run_and_report_benchmark.

(** *** [BertSquadAccuracy] *)

Definition Accuracy_setup : M (St W) unit :=
  base__setup ;;;
  set_flag "train_data_path" (PyStr SQUAD_TRAIN_DATA_PATH) ;;;
  set_flag "predict_file" (PyStr SQUAD_PREDICT_FILE) ;;;
  set_flag "vocab_file" (PyStr SQUAD_VOCAB_FILE) ;;;
  set_flag "input_meta_data_path" (PyStr SQUAD_FULL_INPUT_META_DATA_PATH) ;;;
  set_flag "bert_config_file" (PyStr MODEL_CONFIG_FILE_PATH) ;;;
  set_flag "init_checkpoint" (PyStr PRETRAINED_CHECKPOINT_PATH) ;;;
  set_flag "num_train_epochs" (PyInt 2).

Definition Accuracy_run_and_report_benchmark : M (St W) unit :=
  start_time_sec <- time ;;
  _train_squad ;;;
  _evaluate_squad ;;;
  now <- time ;;
  let wall_time_sec := PrimFloat.sub now start_time_sec in
  summary <- _read_training_summary_from_file ;;
  f1 <- get_attr "eval_metrics" eval_metrics ;;
  setitem summary "eval_metrics" (JFloat f1) ;;;
  _report_benchmark summary wall_time_sec (PyFloat 0.900) (PyFloat 0.908).

Definition Accuracy_benchmark_8_gpu : M (St W) unit :=
  Accuracy_setup ;;;
  set_num_gpus 8 ;;;
  d <- _get_model_dir "benchmark_8_gpu_squad" ;;
  set_flag "model_dir" (PyStr d) ;;;
  set_flag "train_batch_size" (PyInt 32) ;;;
  Accuracy_run_and_report_benchmark.

End Program.

(** *** The trace of a run *)

Inductive event :=
| EvTime (t : float)
| EvRead (path mode : string) (r : outcome string)
| EvGetStrategy (distribution_strategy : string) (num_gpus : Z)
    (r : outcome handle)
| EvTrainSquad (fl : Flags) (strategy : handle) (input_meta_data : json)
    (custom_callbacks : list handle) (r : outcome Flags)
| EvPredictSquad (fl : Flags) (strategy : handle) (input_meta_data : json)
    (r : outcome Flags)
| EvBaseSetup (fl : Flags) (r : outcome (Flags * handle))
| EvGetModelDir (folder_name : string) (r : outcome string)
| EvReport (fl : Flags) (stats : json) (wall_time_sec : float)
    (min_accuracy max_accuracy : pyval) (r : outcome unit).

(** A call whose event records how it ended. *)
Definition logged_result {W A} (mk : outcome A -> event) (f : ext W A)
  : ext (W * list event) A :=
  fun wl =>
    let '(r, w) := f (fst wl) in
    (r, (w, (snd wl ++ [mk r])%list)).

Definition traced {W} (fw : Framework W) : Framework (W * list event) := {|
  time_time :=
    fun wl =>
      let '(t, w) := time_time fw (fst wl) in
      (t, (w, (snd wl ++ [EvTime t])%list));
  gfile_read := fun p m => logged_result (EvRead p m) (gfile_read fw p m);
  utf8_decode := utf8_decode fw;
  json_loads := json_loads fw;
  get_distribution_strategy :=
    fun d n =>
      logged_result (EvGetStrategy d n) (get_distribution_strategy fw d n);
  train_squad :=
    fun fl s m cb =>
      logged_result (EvTrainSquad fl s m cb) (train_squad fw fl s m cb);
  predict_squad :=
    fun fl s m =>
      logged_result (EvPredictSquad fl s m) (predict_squad fw fl s m);
  evaluate := evaluate fw;
  base_setup := fun fl => logged_result (EvBaseSetup fl) (base_setup fw fl);
  get_model_dir :=
    fun n => logged_result (EvGetModelDir n) (get_model_dir fw n);
  report_benchmark :=
    fun fl st wt lo hi =>
      logged_result (EvReport fl st wt lo hi)
        (report_benchmark fw fl st wt lo hi)
|}.

(** A state of the traced program, with an empty log. *)
Definition start {W} (s : St W) : St (W * list event) := {|
  flags := flags s; self := self s; heap := heap s; world := (world s, [])
|}.

Definition log {W} (s : St (W * list event)) : list event := snd (world s).

(** The state of the program without its log. *)
Definition erase {W} (s : St (W * list event)) : St W := {|
  flags := flags s; self := self s; heap := heap s; world := fst (world s)
|}.

(** The kinds of steps, for statements about their order. *)
Inductive kind :=
| KSetup
| KModelDir
| KClock
| KRead
| KStrategy
| KTrain
| KPredict
| KReport.

Definition kind_of (e : event) : kind :=
  match e with
  | EvTime _ => KClock
  | EvRead _ _ _ => KRead
  | EvGetStrategy _ _ _ => KStrategy
  | EvTrainSquad _ _ _ _ _ => KTrain
  | EvPredictSquad _ _ _ _ => KPredict
  | EvBaseSetup _ _ => KSetup
  | EvGetModelDir _ _ => KModelDir
  | EvReport _ _ _ _ _ _ => KReport
  end.

Definition kind_eqb (a b : kind) : bool :=
  match a, b with
  | KSetup, KSetup | KModelDir, KModelDir | KClock, KClock | KRead, KRead
  | KStrategy, KStrategy | KTrain, KTrain | KPredict, KPredict
  | KReport, KReport => true
  | _, _ => false
  end.

(** Whether [l] is an initial segment of [full]. *)
Fixpoint is_prefix (l full : list kind) : bool :=
  match l, full with
  | [], _ => true
  | a :: l', b :: full' => kind_eqb a b && is_prefix l' full'
  | _ :: _, [] => false
  end.

(** The order of the steps of a benchmark method of [BertSquadBenchmarkReal]
    and of [BertSquadAccuracy]. *)
Definition Real_order : list kind :=
  [KSetup; KModelDir; KClock; KRead; KStrategy; KTrain; KClock; KRead;
   KReport].

Definition Accuracy_order : list kind :=
  [KSetup; KModelDir; KClock; KRead; KStrategy; KTrain; KRead; KStrategy;
   KPredict; KRead; KRead; KClock; KRead; KReport].

(** The benchmark methods of the module. *)
Inductive method :=
| Real_1_gpu
| Real_2_gpu
| Real_4_gpu
| Real_8_gpu
| Accuracy_8_gpu.

Definition run_method {W} (fw : Framework W) (m : method) : M (St W) unit :=
  match m with
  | Real_1_gpu => Real_benchmark_1_gpu fw
  | Real_2_gpu => Real_benchmark_2_gpu fw
  | Real_4_gpu => Real_benchmark_4_gpu fw
  | Real_8_gpu => Real_benchmark_8_gpu fw
  | Accuracy_8_gpu => Accuracy_benchmark_8_gpu fw
  end.

Definition gpus_of (m : method) : Z :=
  match m with
  | Real_1_gpu => 1
  | Real_2_gpu => 2
  | Real_4_gpu => 4
  | Real_8_gpu | Accuracy_8_gpu => 8
  end.

Definition order_of (m : method) : list kind :=
  match m with
  | Accuracy_8_gpu => Accuracy_order
  | _ => Real_order
  end.

(** The steps between the two readings of the clock. *)
Definition timed_steps (m : method) : list kind :=
  match m with
  | Accuracy_8_gpu =>
      [KRead; KStrategy; KTrain; KRead; KStrategy; KPredict; KRead; KRead]
  | _ => [KRead; KStrategy; KTrain]
  end.

(** Whether a training call returned. *)
Definition trained (tr : list event) : bool :=
  existsb
    (fun e =>
       match e with
       | EvTrainSquad _ _ _ _ (Return _) => true
       | _ => false
       end) tr.

(** The folder name that [benchmark_N_gpu] hands to [_get_model_dir]. *)
Definition folder_name (N : Z) : string :=
  "benchmark_" ++ pretty N ++ "_gpu_squad".

(** The method [benchmark_N_gpu] of [BertSquadBenchmarkReal], if there is
    one. *)
Definition Real_benchmark (N : Z) : option method :=
  if N =? 1 then Some Real_1_gpu
  else if N =? 2 then Some Real_2_gpu
  else if N =? 4 then Some Real_4_gpu
  else if N =? 8 then Some Real_8_gpu
  else None.

(** Every strategy request names ['mirrored'] with [n] replicas, and every
    training or prediction call runs under the strategy that the latest
    request returned ([current]). *)
Fixpoint strategies_ok (n : Z) (current : option handle) (tr : list event)
  : bool :=
  match tr with
  | [] => true
  | EvGetStrategy name k r :: tr' =>
      String.eqb name "mirrored" && (k =? n)
      && strategies_ok n
           (match r with Return h => Some h | Raise _ => None end) tr'
  | EvTrainSquad _ s _ _ _ :: tr' | EvPredictSquad _ s _ _ :: tr' =>
      match current with
      | Some h => Nat.eqb h s
      | None => false
      end && strategies_ok n current tr'
  | _ :: tr' => strategies_ok n current tr'
  end.

(** Modelled from the spec: [BertBenchmarkBase._report_benchmark] of
    [official/bert/benchmark/benchmark_utils.py] is not among the sources.
    The spec describes it as the "comparison of returned summary statistics
    against hard-coded thresholds" and gives the accuracy test as "F1 score
    falls within [0.900, 0.908]": the check holds when the [eval_metrics]
    entry of the statistics lies between the two thresholds, both included.
    It is [None] where the statistics hold no floating-point [eval_metrics]
    or a threshold is not a floating-point number. *)
Definition accuracy_within_thresholds (stats : json)
    (min_accuracy max_accuracy : pyval) : option bool :=
  match stats, min_accuracy, max_accuracy with
  | JObj entries, PyFloat lo, PyFloat hi =>
      match entries !! "eval_metrics" with
      | Some (JFloat score) =>
          Some (PrimFloat.leb lo score && PrimFloat.leb score hi)
      | _ => None
      end
  | _, _, _ => None
  end.

(** *** A framework double

    A world that is a clock counting seconds.  Every file holds its own
    name, every text decodes to [doc], the evaluation scores [f1], and the
    model runs leave the flags alone. *)
Definition double (doc : json) (f1 : float) : Framework float := {|
  time_time := fun t => (t, PrimFloat.add t 1);
  gfile_read := fun p _ t => (Return p, t);
  utf8_decode := fun b => Return b;
  json_loads := fun _ => Return doc;
  get_distribution_strategy := fun _ n t => (Return (Z.to_nat n), t);
  train_squad := fun fl _ _ _ t => (Return fl, PrimFloat.add t 100);
  predict_squad := fun fl _ _ t => (Return fl, PrimFloat.add t 10);
  evaluate := fun _ _ => Return {[ "exact_match" := 0.83%float; "f1" := f1 ]};
  base_setup := fun fl t => (Return (fl, 7%nat), t);
  get_model_dir := fun n t => (Return ("/out/" ++ n)%string, t);
  report_benchmark := fun _ _ _ _ _ t => (Return tt, t)
|}.

Definition double_doc : json :=
  JObj {[ "data" := JArr []; "total_training_steps" := JInt 10 ]}.

(** A benchmark object whose flags and attributes are set, as a benchmark
    method leaves them before [_run_and_report_benchmark]. *)
Definition ready_state : St float := {|
  flags := {[ "input_meta_data_path" := PyStr SQUAD_FULL_INPUT_META_DATA_PATH;
              "model_dir" := PyStr "/out/benchmark_8_gpu_squad" ]};
  self := {| num_gpus := Some 8; eval_metrics := None;
             timer_callback := Some 7%nat |};
  heap := [];
  world := 0%float
|}.

Definition fresh_state : St float := {|
  flags := ∅;
  self := {| num_gpus := None; eval_metrics := None; timer_callback := None |};
  heap := [];
  world := 0%float
|}.

(** *** Further vocabulary for statements about a run *)

(** The flags that a benchmark method assigns before it runs the model. *)
Definition assigned (m : method) : list string :=
  match m with
  | Accuracy_8_gpu =>
      ["train_data_path"; "predict_file"; "vocab_file";
       "input_meta_data_path"; "bert_config_file"; "init_checkpoint";
       "num_train_epochs"; "model_dir"; "train_batch_size"]
  | _ =>
      ["train_data_path"; "predict_file"; "vocab_file";
       "input_meta_data_path"; "bert_config_file"; "num_train_epochs";
       "model_dir"; "train_batch_size"]
  end.

(** The flags [fl] are those that the base [_setup] left ([base]) but for
    the assigned ones, of which the data files, the model directory [dir]
    and the batch size are as the method sets them. *)
Definition flags_wired (m : method) (base : Flags) (dir : string)
    (fl : Flags) : Prop :=
  (forall name, ~ In name (assigned m) -> fl !! name = base !! name)
  /\ fl !! "train_data_path" = Some (PyStr SQUAD_TRAIN_DATA_PATH)
  /\ fl !! "predict_file" = Some (PyStr SQUAD_PREDICT_FILE)
  /\ fl !! "vocab_file" = Some (PyStr SQUAD_VOCAB_FILE)
  /\ fl !! "bert_config_file" = Some (PyStr MODEL_CONFIG_FILE_PATH)
  /\ fl !! "model_dir" = Some (PyStr dir)
  /\ fl !! "train_batch_size" = Some (PyInt (4 * gpus_of m)).

(** Every call that reads [FLAGS] saw flags with the property [P], and
    every training call was given exactly the callbacks [callbacks]. *)
Fixpoint calls_saw (P : Flags -> Prop) (callbacks : list handle)
    (tr : list event) : Prop :=
  match tr with
  | [] => True
  | EvTrainSquad fl _ _ given _ :: tr' =>
      P fl /\ given = callbacks /\ calls_saw P callbacks tr'
  | EvPredictSquad fl _ _ _ :: tr' | EvReport fl _ _ _ _ _ :: tr' =>
      P fl /\ calls_saw P callbacks tr'
  | _ :: tr' => calls_saw P callbacks tr'
  end.

(** The wiring of a whole run of a benchmark method: the calls after the
    set-up saw the flags of the set-up and the timer callback it made. *)
Definition run_wired (m : method) (tr : list event) : Prop :=
  match tr with
  | EvBaseSetup _ (Return (base, timer))
      :: EvGetModelDir _ (Return dir) :: tr' =>
      calls_saw (flags_wired m base dir) [timer] tr'
  | _ => calls_saw (fun _ => False) [] tr
  end.

(** The file that a returned prediction is scored against is the one that
    [FLAGS.predict_file] named when the prediction was made: the call that
    follows a prediction call that returned is a read, and it is a text read
    of that file. *)
Fixpoint predictions_scored (tr : list event) : Prop :=
  match tr with
  | [] => True
  | e :: tr' =>
      match e with
      | EvPredictSquad fl _ _ (Return _) =>
          match tr' with
          | EvRead path mode _ :: _ =>
              fl !! "predict_file" = Some (PyStr path) /\ mode = "r"
          | _ => False
          end
      | _ => True
      end /\ predictions_scored tr'
  end.

(** The callbacks of a benchmark object whose timer is set or not. *)
Definition timer_callbacks (o : Self) : list handle :=
  match timer_callback o with
  | Some timer => [timer]
  | None => []
  end.

End SquadBenchmark.

(** ** [official/resnet/keras/keras_imagenet_test.py] *)

Module KerasImagenetTest.

(** The class attribute [_extra_flags]. *)
Definition _extra_flags : list string :=
  ["-batch_size"; "4"; "-train_steps"; "1"; "-use_synthetic_data"; "true"].

(** A test instance: the attribute [_tempdir], [None] in the class. *)
Record St (W : Type) := {
  _tempdir : option string;
  world : W
}.
Arguments _tempdir {W} _.
Arguments world {W} _.

(** What the test calls outside the file. *)
Record Framework (W : Type) := {
  (* googletest.GetTempDir() *)
  GetTempDir : ext W string;
  (* tempfile.mkdtemp(dir=parent) *)
  mkdtemp : string -> ext W string;
  (* tf.io.gfile.rmtree(path) *)
  rmtree : string -> ext W unit;
  (* context.num_gpus() *)
  num_gpus : W -> Z * W;
  (* keras_utils.get_config_proto_v1() *)
  get_config_proto_v1 : ext W handle;
  (* tf.compat.v1.enable_eager_execution(config=config) *)
  enable_eager_execution : handle -> ext W unit;
  (* integration.run_synthetic(main=keras_imagenet_main.run, tmp_root,
     extra_flags) *)
  run_synthetic : string -> list string -> ext W unit;
  (* super().setUpClass() *)
  super_setUpClass : ext W unit;
  (* keras_imagenet_main.define_imagenet_keras_flags() *)
  define_imagenet_keras_flags : ext W unit;
  (* super().setUp() *)
  super_setUp : ext W unit;
  (* imagenet_main.NUM_IMAGES[key] = n *)
  set_NUM_IMAGES : string -> Z -> ext W unit;
  (* super().tearDown() *)
  super_tearDown : ext W unit
}.
Arguments GetTempDir {W} _.
Arguments mkdtemp {W} _.
Arguments rmtree {W} _.
Arguments num_gpus {W} _.
Arguments get_config_proto_v1 {W} _.
Arguments enable_eager_execution {W} _.
Arguments run_synthetic {W} _.
Arguments super_setUpClass {W} _.
Arguments define_imagenet_keras_flags {W} _.
Arguments super_setUp {W} _.
Arguments set_NUM_IMAGES {W} _.
Arguments super_tearDown {W} _.

Section Program.

Context {W : Type} (fw : Framework W).

Definition call {A} (f : ext W A) : M (St W) A :=
  fun s =>
    let '(r, w) := f (world s) in
    (r, {| _tempdir := _tempdir s; world := w |}).

Definition context_num_gpus : M (St W) Z :=
  fun s =>
    let '(n, w) := num_gpus fw (world s) in
    (Return n, {| _tempdir := _tempdir s; world := w |}).

Definition get_temp_dir : M (St W) string :=
  t <- gets _tempdir ;;
  (if negb (truthy_opt_str t) then
     root <- call (GetTempDir fw) ;;
     d <- call (mkdtemp fw root) ;;
     modify (fun s => {| _tempdir := Some d; world := world s |})
   else ret tt) ;;;
  t <- gets _tempdir ;;
  match t with
  | Some d => ret d
  | None => raise TypeError
  end.

Definition setUpClass : M (St W) unit :=
  call (super_setUpClass fw) ;;;
  call (define_imagenet_keras_flags fw).

Definition setUp : M (St W) unit :=
  call (super_setUp fw) ;;;
  call (set_NUM_IMAGES fw "validation" 4).

Definition tearDown : M (St W) unit :=
  call (super_tearDown fw) ;;;
  d <- get_temp_dir ;;
  call (rmtree fw d).

(** The message of [self.skipTest] in the test methods:
    ["{} GPUs are not available for this test. {} GPUs are available"]. *)
Definition skip_message (required available : Z) : string :=
  pretty required ++ " GPUs are not available for this test. "
    ++ pretty available ++ " GPUs are available".

Definition skipTest (reason : string) : M (St W) unit :=
  raise (SkipTest reason).

Definition test_end_to_end_no_dist_strat : M (St W) unit :=
  config <- call (get_config_proto_v1 fw) ;;
  call (enable_eager_execution fw config) ;;;
  let extra_flags :=
    ["-distribution_strategy"; "off";
     "-model_dir"; "keras_imagenet_no_dist_strat";
     "-data_format"; "channels_last"] in
  let extra_flags := (extra_flags ++ _extra_flags)%list in
  tmp_root <- get_temp_dir ;;
  call (run_synthetic fw tmp_root extra_flags).

Definition test_end_to_end_graph_no_dist_strat : M (St W) unit :=
  let extra_flags :=
    ["-enable_eager"; "false";
     "-distribution_strategy"; "off";
     "-model_dir"; "keras_imagenet_graph_no_dist_strat";
     "-data_format"; "channels_last"] in
  let extra_flags := (extra_flags ++ _extra_flags)%list in
  tmp_root <- get_temp_dir ;;
  call (run_synthetic fw tmp_root extra_flags).

Definition test_end_to_end_1_gpu : M (St W) unit :=
  config <- call (get_config_proto_v1 fw) ;;
  call (enable_eager_execution fw config) ;;;
  available <- context_num_gpus ;;
  (if available <? 1 then
     available <- context_num_gpus ;;
     skipTest (skip_message 1 available)
   else ret tt) ;;;
  let extra_flags :=
    ["-num_gpus"; "1";
     "-distribution_strategy"; "default";
     "-model_dir"; "keras_imagenet_1_gpu";
     "-data_format"; "channels_last"] in
  let extra_flags := (extra_flags ++ _extra_flags)%list in
  tmp_root <- get_temp_dir ;;
  call (run_synthetic fw tmp_root extra_flags).

Definition test_end_to_end_graph_1_gpu : M (St W) unit :=
  available <- context_num_gpus ;;
  (if available <? 1 then
     available <- context_num_gpus ;;
     skipTest (skip_message 1 available)
   else ret tt) ;;;
  let extra_flags :=
    ["-num_gpus"; "1";
     "-enable_eager"; "false";
     "-distribution_strategy"; "default";
     "-model_dir"; "keras_imagenet_graph_1_gpu";
     "-data_format"; "channels_last"] in
  let extra_flags := (extra_flags ++ _extra_flags)%list in
  tmp_root <- get_temp_dir ;;
  call (run_synthetic fw tmp_root extra_flags).

Definition test_end_to_end_2_gpu : M (St W) unit :=
  config <- call (get_config_proto_v1 fw) ;;
  call (enable_eager_execution fw config) ;;;
  available <- context_num_gpus ;;
  (if available <? 2 then
     available <- context_num_gpus ;;
     skipTest (skip_message 2 available)
   else ret tt) ;;;
  let extra_flags :=
    ["-num_gpus"; "2";
     "-distribution_strategy"; "default";
     "-model_dir"; "keras_imagenet_2_gpu"] in
  let extra_flags := (extra_flags ++ _extra_flags)%list in
  tmp_root <- get_temp_dir ;;
  call (run_synthetic fw tmp_root extra_flags).

Definition test_end_to_end_xla_2_gpu : M (St W) unit :=
  config <- call (get_config_proto_v1 fw) ;;
  call (enable_eager_execution fw config) ;;;
  available <- context_num_gpus ;;
  (if available <? 2 then
     available <- context_num_gpus ;;
     skipTest (skip_message 2 available)
   else ret tt) ;;;
  let extra_flags :=
    ["-num_gpus"; "2";
     "-enable_xla"; "true";
     "-distribution_strategy"; "default";
     "-model_dir"; "keras_imagenet_xla_2_gpu"] in
  let extra_flags := (extra_flags ++ _extra_flags)%list in
  tmp_root <- get_temp_dir ;;
  call (run_synthetic fw tmp_root extra_flags).

Definition test_end_to_end_2_gpu_fp16 : M (St W) unit :=
  config <- call (get_config_proto_v1 fw) ;;
  call (enable_eager_execution fw config) ;;;
  available <- context_num_gpus ;;
  (if available <? 2 then
     available <- context_num_gpus ;;
     skipTest (skip_message 2 available)
   else ret tt) ;;;
  let extra_flags :=
    ["-num_gpus"; "2";
     "-dtype"; "fp16";
     "-distribution_strategy"; "default";
     "-model_dir"; "keras_imagenet_2_gpu_fp16"] in
  let extra_flags := (extra_flags ++ _extra_flags)%list in
  tmp_root <- get_temp_dir ;;
  call (run_synthetic fw tmp_root extra_flags).

Definition test_end_to_end_xla_2_gpu_fp16 : M (St W) unit :=
  config <- call (get_config_proto_v1 fw) ;;
  call (enable_eager_execution fw config) ;;;
  available <- context_num_gpus ;;
  (if available <? 2 then
     available <- context_num_gpus ;;
     skipTest (skip_message 2 available)
   else ret tt) ;;;
  let extra_flags :=
    ["-num_gpus"; "2";
     "-dtype"; "fp16";
     "-enable_xla"; "true";
     "-distribution_strategy"; "default";
     "-model_dir"; "keras_imagenet_xla_2_gpu_fp16"] in
  let extra_flags := (extra_flags ++ _extra_flags)%list in
  tmp_root <- get_temp_dir ;;
  call (run_synthetic fw tmp_root extra_flags).

Definition test_end_to_end_graph_2_gpu : M (St W) unit :=
  available <- context_num_gpus ;;
  (if available <? 2 then
     available <- context_num_gpus ;;
     skipTest (skip_message 2 available)
   else ret tt) ;;;
  let extra_flags :=
    ["-num_gpus"; "2";
     "-enable_eager"; "false";
     "-distribution_strategy"; "default";
     "-model_dir"; "keras_imagenet_graph_2_gpu"] in
  let extra_flags := (extra_flags ++ _extra_flags)%list in
  tmp_root <- get_temp_dir ;;
  call (run_synthetic fw tmp_root extra_flags).

Definition test_end_to_end_graph_xla_2_gpu : M (St W) unit :=
  available <- context_num_gpus ;;
  (if available <? 2 then
     available <- context_num_gpus ;;
     skipTest (skip_message 2 available)
   else ret tt) ;;;
  let extra_flags :=
    ["-num_gpus"; "2";
     "-enable_eager"; "false";
     "-enable_xla"; "true";
     "-distribution_strategy"; "default";
     "-model_dir"; "keras_imagenet_graph_xla_2_gpu"] in
  let extra_flags := (extra_flags ++ _extra_flags)%list in
  tmp_root <- get_temp_dir ;;
  call (run_synthetic fw tmp_root extra_flags).

(** The state after [n] calls of [get_temp_dir], whatever each returned. *)
Fixpoint after_calls (n : nat) (s : St W) : St W :=
  match n with
  | O => s
  | S n' => after_calls n' (snd (get_temp_dir s))
  end.

End Program.

(** *** The test cases and what they need *)

Inductive test :=
| no_dist_strat
| graph_no_dist_strat
| one_gpu
| graph_1_gpu
| two_gpu
| xla_2_gpu
| two_gpu_fp16
| xla_2_gpu_fp16
| graph_2_gpu
| graph_xla_2_gpu.

Definition run_test {W} (fw : Framework W) (t : test) : M (St W) unit :=
  match t with
  | no_dist_strat => test_end_to_end_no_dist_strat fw
  | graph_no_dist_strat => test_end_to_end_graph_no_dist_strat fw
  | one_gpu => test_end_to_end_1_gpu fw
  | graph_1_gpu => test_end_to_end_graph_1_gpu fw
  | two_gpu => test_end_to_end_2_gpu fw
  | xla_2_gpu => test_end_to_end_xla_2_gpu fw
  | two_gpu_fp16 => test_end_to_end_2_gpu_fp16 fw
  | xla_2_gpu_fp16 => test_end_to_end_xla_2_gpu_fp16 fw
  | graph_2_gpu => test_end_to_end_graph_2_gpu fw
  | graph_xla_2_gpu => test_end_to_end_graph_xla_2_gpu fw
  end.

(** The GPU count in the name and documentation string of a test case; the
    tests without distribution strategy ask for none. *)
Definition required_gpus (t : test) : Z :=
  match t with
  | no_dist_strat | graph_no_dist_strat => 0
  | one_gpu | graph_1_gpu => 1
  | _ => 2
  end.

(** *** The trace of a run *)

Inductive event :=
| EvGetTempDir (r : outcome string)
| EvMkdtemp (dir : string) (r : outcome string)
| EvRmtree (path : string) (r : outcome unit)
| EvNumGpus (n : Z)
| EvConfigProto (r : outcome handle)
| EvEnableEager (config : handle) (r : outcome unit)
| EvRunSynthetic (tmp_root : string) (extra_flags : list string)
    (r : outcome unit)
| EvSuperSetUpClass (r : outcome unit)
| EvDefineFlags (r : outcome unit)
| EvSuperSetUp (r : outcome unit)
| EvSetNumImages (key : string) (n : Z) (r : outcome unit)
| EvSuperTearDown (r : outcome unit).

Definition logged_result {W A} (mk : outcome A -> event) (f : ext W A)
  : ext (W * list event) A :=
  fun wl =>
    let '(r, w) := f (fst wl) in
    (r, (w, (snd wl ++ [mk r])%list)).

Definition traced {W} (fw : Framework W) : Framework (W * list event) := {|
  GetTempDir := logged_result EvGetTempDir (GetTempDir fw);
  mkdtemp := fun d => logged_result (EvMkdtemp d) (mkdtemp fw d);
  rmtree := fun p => logged_result (EvRmtree p) (rmtree fw p);
  num_gpus :=
    fun wl =>
      let '(n, w) := num_gpus fw (fst wl) in
      (n, (w, (snd wl ++ [EvNumGpus n])%list));
  get_config_proto_v1 := logged_result EvConfigProto (get_config_proto_v1 fw);
  enable_eager_execution :=
    fun c => logged_result (EvEnableEager c) (enable_eager_execution fw c);
  run_synthetic :=
    fun d fl => logged_result (EvRunSynthetic d fl) (run_synthetic fw d fl);
  super_setUpClass := logged_result EvSuperSetUpClass (super_setUpClass fw);
  define_imagenet_keras_flags :=
    logged_result EvDefineFlags (define_imagenet_keras_flags fw);
  super_setUp := logged_result EvSuperSetUp (super_setUp fw);
  set_NUM_IMAGES :=
    fun k n => logged_result (EvSetNumImages k n) (set_NUM_IMAGES fw k n);
  super_tearDown := logged_result EvSuperTearDown (super_tearDown fw)
|}.

Definition start {W} (s : St W) : St (W * list event) :=
  {| _tempdir := _tempdir s; world := (world s, []) |}.

Definition log {W} (s : St (W * list event)) : list event := snd (world s).

(** The test instance without its log. *)
Definition erase {W} (s : St (W * list event)) : St W :=
  {| _tempdir := _tempdir s; world := fst (world s) |}.

Definition is_Return {A} (r : outcome A) : bool :=
  match r with Return _ => true | Raise _ => false end.

Definition is_skip {A} (r : outcome A) : bool :=
  match r with Raise (SkipTest _) => true | _ => false end.

(** The directories that [mkdtemp] created, in order. *)
Fixpoint created (tr : list event) : list string :=
  match tr with
  | [] => []
  | EvMkdtemp _ (Return d) :: tr' => d :: created tr'
  | _ :: tr' => created tr'
  end.

(** The paths that [rmtree] was called on, in order. *)
Fixpoint removed (tr : list event) : list string :=
  match tr with
  | [] => []
  | EvRmtree p _ :: tr' => p :: removed tr'
  | _ :: tr' => removed tr'
  end.

(** The parents under which [mkdtemp] was asked to create a directory. *)
Fixpoint parents (tr : list event) : list string :=
  match tr with
  | [] => []
  | EvMkdtemp parent _ :: tr' => parent :: parents tr'
  | _ :: tr' => parents tr'
  end.

(** The GPU counts that the run was told, in order. *)
Fixpoint gpu_counts (tr : list event) : list Z :=
  match tr with
  | [] => []
  | EvNumGpus n :: tr' => n :: gpu_counts tr'
  | _ :: tr' => gpu_counts tr'
  end.

(** The calls of [integration.run_synthetic]. *)
Fixpoint model_runs (tr : list event) : nat :=
  match tr with
  | [] => 0
  | EvRunSynthetic _ _ _ :: tr' => S (model_runs tr')
  | _ :: tr' => model_runs tr'
  end.

(** Whether a call raised. *)
Definition raised (e : event) : bool :=
  match e with
  | EvGetTempDir r | EvMkdtemp _ r => negb (is_Return r)
  | EvRmtree _ r | EvEnableEager _ r | EvRunSynthetic _ _ r
  | EvSuperSetUpClass r | EvDefineFlags r | EvSuperSetUp r
  | EvSetNumImages _ _ r | EvSuperTearDown r => negb (is_Return r)
  | EvConfigProto r => negb (is_Return r)
  | EvNumGpus _ => false
  end.

(** Every model run comes after a GPU count of at least [required] was
    read ([enough] tells whether one was read already). *)
Fixpoint runs_guarded (required : Z) (enough : bool) (tr : list event)
  : bool :=
  match tr with
  | [] => true
  | EvNumGpus n :: tr' => runs_guarded required (required <=? n) tr'
  | EvRunSynthetic _ _ _ :: tr' => enough && runs_guarded required enough tr'
  | _ :: tr' => runs_guarded required enough tr'
  end.

(** The instances that the code can reach: nothing cached and nothing
    made, or a path cached and at most one directory made. *)
Definition reachable {W} (s : St (W * list event)) : Prop :=
  (truthy_opt_str (_tempdir s) = false /\ created (log s) = [])
  \/ (exists path,
        _tempdir s = Some path /\ truthy_str path = true
        /\ (length (created (log s)) <= 1)%nat).

(** *** A framework double

    A machine with [gpus] GPUs whose world is the list of the temporary
    directories that exist. *)
Definition double (gpus : Z) : Framework (list string) := {|
  GetTempDir := fun w => (Return "/tmp/test", w);
  mkdtemp :=
    fun d w =>
      let p := os_path_join d ("tmp" ++ pretty (Z.of_nat (length w))) in
      (Return p, (w ++ [p])%list);
  rmtree := fun p w => (Return tt, filter (fun q => negb (String.eqb p q)) w);
  num_gpus := fun w => (gpus, w);
  get_config_proto_v1 := fun w => (Return 0%nat, w);
  enable_eager_execution := fun _ w => (Return tt, w);
  run_synthetic := fun _ _ w => (Return tt, w);
  super_setUpClass := fun w => (Return tt, w);
  define_imagenet_keras_flags := fun w => (Return tt, w);
  super_setUp := fun w => (Return tt, w);
  set_NUM_IMAGES := fun _ _ w => (Return tt, w);
  super_tearDown := fun w => (Return tt, w)
|}.

Definition fresh_instance : St (list string) :=
  {| _tempdir := None; world := [] |}.

(** *** Further vocabulary for statements about a run *)

(** The value that follows the flag [name] in a command line of flags and
    values. *)
Fixpoint flag_value (name : string) (args : list string) : option string :=
  match args with
  | flag :: rest =>
      match rest with
      | value :: rest' =>
          if String.eqb flag name then Some value else flag_value name rest'
      | [] => None
      end
  | [] => None
  end.

(** The command line of a model run suits a test case that requires
    [required] GPUs. *)
Definition flags_suit (required : Z) (args : list string) : Prop :=
  flag_value "-num_gpus" args
  = (if required =? 0 then None else Some (pretty required))
  /\ flag_value "-distribution_strategy" args
     = Some (if required =? 0 then "off" else "default")
  /\ flag_value "-batch_size" args = Some "4"
  /\ flag_value "-train_steps" args = Some "1"
  /\ flag_value "-use_synthetic_data" args = Some "true"
  /\ exists own, args = (own ++ _extra_flags)%list.

(** The command lines of the model runs, in order. *)
Fixpoint command_lines (tr : list event) : list (list string) :=
  match tr with
  | [] => []
  | EvRunSynthetic _ args _ :: tr' => args :: command_lines tr'
  | _ :: tr' => command_lines tr'
  end.

(** The temporary roots of the model runs, in order. *)
Fixpoint run_roots (tr : list event) : list string :=
  match tr with
  | [] => []
  | EvRunSynthetic root _ _ :: tr' => root :: run_roots tr'
  | _ :: tr' => run_roots tr'
  end.

(** The model directory that each test case names on its command line. *)
Definition model_dir_of (t : test) : string :=
  match t with
  | no_dist_strat => "keras_imagenet_no_dist_strat"
  | graph_no_dist_strat => "keras_imagenet_graph_no_dist_strat"
  | one_gpu => "keras_imagenet_1_gpu"
  | graph_1_gpu => "keras_imagenet_graph_1_gpu"
  | two_gpu => "keras_imagenet_2_gpu"
  | xla_2_gpu => "keras_imagenet_xla_2_gpu"
  | two_gpu_fp16 => "keras_imagenet_2_gpu_fp16"
  | xla_2_gpu_fp16 => "keras_imagenet_xla_2_gpu_fp16"
  | graph_2_gpu => "keras_imagenet_graph_2_gpu"
  | graph_xla_2_gpu => "keras_imagenet_graph_xla_2_gpu"
  end.

(** A model run that is the last call of the log, if there is one at
    all. *)
Fixpoint run_is_last (tr : list event) : bool :=
  match tr with
  | [] => true
  | EvRunSynthetic _ _ _ :: tr' =>
      match tr' with [] => true | _ :: _ => false end
  | _ :: tr' => run_is_last tr'
  end.

(** What a test case did about the GPU count, read off the counts it was
    told: it asked once and went on, or it asked twice, the second time for
    the message of the skip. *)
Definition gpu_check (required : Z) (counts : list Z) {A} (r : outcome A)
  : Prop :=
  match counts with
  | [] => True
  | [n] => required <= n
  | [n; available] =>
      n < required /\ r = Raise (SkipTest (skip_message required available))
  | _ => False
  end.

(** The configurations that eager execution was enabled with, in order. *)
Fixpoint eager_calls (tr : list event) : list handle :=
  match tr with
  | [] => []
  | EvEnableEager config _ :: tr' => config :: eager_calls tr'
  | _ :: tr' => eager_calls tr'
  end.

End KerasImagenetTest.

(** * Properties

    ** Pre-training: the strategy dispatch and the batch-size check *)

Module RunPretrainingFacts.
Import RunPretraining.

Lemma is_TPUStrategy_true s : is_TPUStrategy s = true <-> cls s = TPUStrategy.
Proof. unfold is_TPUStrategy. destruct (cls s); split; congruence. Qed.

Lemma is_TPUStrategy_false s : is_TPUStrategy s = false <-> cls s <> TPUStrategy.
Proof. unfold is_TPUStrategy. destruct (cls s); split; congruence. Qed.

(** C2, for TPU strategies: under a [TPUStrategy], a batch size that the number of
    replicas does not divide makes [get_pretrain_input_data] raise the
    [ValueError] of the source and leave the world untouched; under a
    strategy of any other class the function makes no such check and
    returns what [_dataset_fn] builds with the whole batch size. *)
Theorem get_pretrain_input_data_checks_tpu_only
    {W} (tf : TF W) (input_file_pattern : option string)
    (seq_length max_predictions_per_seq batch_size : Z) (strategy : Strategy)
    (w : W) :
  (cls strategy = TPUStrategy ->
   num_replicas_in_sync strategy <> 0 ->
   batch_size mod num_replicas_in_sync strategy <> 0 ->
   get_pretrain_input_data tf input_file_pattern seq_length
     max_predictions_per_seq batch_size strategy w
   = (Raise (ValueError
        ("Batch size must be divisible by number of replicas : "
           ++ pretty (num_replicas_in_sync strategy))), w))
  /\
  (cls strategy <> TPUStrategy ->
   get_pretrain_input_data tf input_file_pattern seq_length
     max_predictions_per_seq batch_size strategy w
   = match _dataset_fn tf input_file_pattern seq_length
             max_predictions_per_seq batch_size w with
     | (Return d, w') => (Return (DatasetValue d), w')
     | (Raise e, w') => (Raise e, w')
     end).
Proof.
  split.
  - intros Htpu Hn Hmod.
    apply is_TPUStrategy_true in Htpu.
    unfold get_pretrain_input_data. rewrite Htpu.
    unfold bind, lift, py_mod.
    apply Z.eqb_neq in Hn. rewrite Hn.
    apply Z.eqb_neq in Hmod. rewrite Hmod. reflexivity.
  - intros Hother.
    apply is_TPUStrategy_false in Hother.
    unfold get_pretrain_input_data. rewrite Hother.
    unfold bind, ret.
    destruct (_dataset_fn _ _ _ _ _ w) as [[d|e] w']; reflexivity.
Qed.

(** The first part at work: a batch of 3 on eight TPU replicas. *)
Lemma get_pretrain_input_data_checks_tpu_only_witness :
  get_pretrain_input_data (double "2.0.0" 8) (Some "train.tf_record") 128 20
    3 {| cls := TPUStrategy; num_replicas_in_sync := 8 |} tt
  = (Raise (ValueError
       "Batch size must be divisible by number of replicas : 8"), tt).
Proof.
  apply (proj1 (get_pretrain_input_data_checks_tpu_only
                  (double "2.0.0" 8) (Some "train.tf_record") 128 20 3
                  {| cls := TPUStrategy; num_replicas_in_sync := 8 |} tt)).
  - reflexivity.
  - vm_compute. discriminate.
  - vm_compute. discriminate.
Defined.

(** C2 does not hold for the other strategies: under a [MirroredStrategy] of two replicas the
    batch size 3 is not a multiple of the replica count, and yet
    [get_pretrain_input_data] returns a dataset, which it had
    [create_pretrain_dataset] build with the batch size 3. *)
Lemma get_pretrain_input_data_mirrored_indivisible :
  3 mod 2 = 1
  /\ get_pretrain_input_data (traced (double "2.0.0" 2))
       (Some "train.tf_record") 128 20 3
       {| cls := MirroredStrategy; num_replicas_in_sync := 2 |} (tt, [])
     = (Return (DatasetValue 2%nat),
        (tt, [EvGlob "train.tf_record";
              EvCreatePretrainDataset ["train.tf_record"] 128 20 3])).
Proof. split; reflexivity. Qed.

(** One external call of the symbolic run: split on how it ends. *)
Ltac run_call W :=
  match goal with
  | |- context [match ?c with pair _ _ => _ end] =>
      match type of c with
      | (outcome _ * W)%type =>
          let r := fresh "r" in
          let w' := fresh "w" in
          destruct c as [r w'] eqn:?; destruct r; cbn
      end
  end.

(** C3: [main] first asserts that the TensorFlow version starts with "2.".
    When it does, a [strategy_type] other than ['mirror'] and ['tpu'] makes
    [main] raise the [ValueError] before any external call; ['mirror'] makes
    its first call the construction of a [MirroredStrategy], ['tpu']
    initialises the TPU system and builds a [TPUStrategy] on the resolver it
    got, and every training loop that follows runs under the strategy of
    that class.  When it does not, [main] raises [AssertionError] before any
    external call, whatever the strategy type. *)
Theorem main_strategy_dispatch {W} (tf : TF W) (fl : Flags) (w : W) :
  (String.prefix "2." (tf_version tf w) = true ->
   (strategy_type fl = "mirror" ->
    exists rest,
      snd (main_run tf fl w) = EvMirroredStrategy :: rest
      /\ forallb (consistent_with MirroredStrategy) rest = true)
   /\
   (strategy_type fl = "tpu" ->
    exists rest,
      snd (main_run tf fl w) = EvTpuInitialize (tpu fl) :: rest
      /\ forallb (consistent_with TPUStrategy) rest = true
      /\ match tpu_initialize tf (tpu fl) w with
         | (Return cluster_resolver, _) =>
             exists rest', rest = EvTPUStrategy cluster_resolver :: rest'
         | (Raise e, _) => rest = [] /\ fst (main_run tf fl w) = Raise e
         end)
   /\
   (strategy_type fl <> "mirror" ->
    strategy_type fl <> "tpu" ->
    main_run tf fl w
    = (Raise (ValueError
         ("The distribution strategy type is not supported: "
            ++ strategy_type fl)), [])))
  /\ (String.prefix "2." (tf_version tf w) = false ->
      main_run tf fl w = (Raise AssertionError, [])).
Proof.
  split; intros Hversion.
  - unfold main_run, main, run_bert_pretrain, run_customized_training, bind,
      gets, assert_; cbn.
    rewrite Hversion. cbn.
    repeat split.
    + intros Hmirror.
      destruct (truthy_opt_str (model_dir fl)); cbn; rewrite Hmirror; cbn;
        unfold call, logged; cbn.
      all: repeat run_call W; eexists; split; reflexivity.
    + intros Htpu.
      destruct (truthy_opt_str (model_dir fl)); cbn; rewrite Htpu; cbn;
        unfold call, logged; cbn.
      all: repeat run_call W; eexists; repeat split; try reflexivity; eauto.
    + intros Hmirror Htpu.
      apply String.eqb_neq in Hmirror, Htpu.
      destruct (truthy_opt_str (model_dir fl)); cbn; rewrite Hmirror, Htpu;
        reflexivity.
  - unfold main_run, main, bind, gets, assert_; cbn.
    by rewrite Hversion.
Qed.

Lemma main_strategy_dispatch_witness :
  main_run (double "2.0.0" 2) (with_strategy_type "parameter_server") tt
  = (Raise (ValueError
       "The distribution strategy type is not supported: parameter_server"),
     [])
  /\ main_run (double "1.15.0" 2) (with_strategy_type "parameter_server") tt
     = (Raise AssertionError, []).
Proof.
  split.
  - apply (proj2 (proj2 (proj1 (main_strategy_dispatch (double "2.0.0" 2)
                                  (with_strategy_type "parameter_server") tt)
                           eq_refl))).
    + vm_compute. discriminate.
    + vm_compute. discriminate.
  - apply (proj2 (main_strategy_dispatch (double "1.15.0" 2)
                    (with_strategy_type "parameter_server") tt)).
    vm_compute. reflexivity.
Defined.

(** Against the claim as the specification words it: under TensorFlow
    1.15 [main] raises [AssertionError] whatever the strategy type is, an
    unsupported one, ['mirror'] or ['tpu']; it raises no [ValueError] and
    builds no strategy, since it makes no call at all. *)
Lemma main_needs_tensorflow_2 :
  String.prefix "2." (tf_version (double "1.15.0" 2) tt) = false
  /\ main_run (double "1.15.0" 2) (with_strategy_type "parameter_server") tt
     = (Raise AssertionError, [])
  /\ main_run (double "1.15.0" 2) (with_strategy_type "mirror") tt
     = (Raise AssertionError, [])
  /\ main_run (double "1.15.0" 2) (with_strategy_type "tpu") tt
     = (Raise AssertionError, []).
Proof. repeat split; reflexivity. Qed.

End RunPretrainingFacts.

(** ** The SQuAD benchmarks *)

Module SquadBenchmarkFacts.
Import SquadBenchmark.

#[local] Arguments os_path_join : simpl never.

Lemma heap_lookup_new (h : list json) (v : json) :
  ((h ++ [v])%list) !! length h = Some v.
Proof. by rewrite list_lookup_middle. Qed.

Lemma heap_insert_new (h : list json) (v v' : json) :
  <[length h := v']> ((h ++ [v])%list) = (h ++ [v'])%list.
Proof.
  rewrite insert_app_r_alt by lia.
  by rewrite Nat.sub_diag.
Qed.

Lemma decode_document_eq {W} (fw : Framework W) bytes text doc :
  utf8_decode fw bytes = Return text ->
  json_loads fw text = Return doc ->
  decode_document fw bytes = Return doc.
Proof. intros Htext Hdoc. unfold decode_document. by rewrite Htext. Qed.

(** One step of a symbolic run: an external call is split on how it ends,
    a pure test on its result; lookups in maps and in the store are
    computed. *)
Ltac run_call W :=
  match goal with
  | |- context [match ?c with pair _ _ => _ end] =>
      match type of c with
      | (outcome _ * W)%type =>
          let r := fresh "r" in
          let w' := fresh "w" in
          destruct c as [r w'] eqn:?; destruct r; cbn
      | (float * W)%type =>
          let t := fresh "t" in
          let w' := fresh "w" in
          destruct c as [t w'] eqn:?; cbn
      end
  end.

Ltac split_on c :=
  first
    [ match goal with H : c = _ |- _ => rewrite H end
    | destruct c eqn:? ];
  cbn.

Ltac run_pure :=
  match goal with
  | |- context [match ?c with Return _ => _ | Raise _ => _ end] => split_on c
  | |- context [match ?c with Some _ => _ | None => _ end] => split_on c
  | |- context [match ?c with PyStr _ => _ | _ => _ end] => split_on c
  | |- context [match ?c with JObj _ => _ | _ => _ end] => split_on c
  end.

Ltac flag_lookup :=
  repeat first
    [ rewrite lookup_insert_eq
    | rewrite lookup_insert_ne by discriminate ].

Ltac run_step W :=
  first
    [ progress rewrite ?heap_lookup_new, ?heap_insert_new; cbn
    | progress flag_lookup; cbn
    | run_call W
    | run_pure ].

Ltac unfold_program :=
  unfold run_method,
    Real_benchmark_1_gpu, Real_benchmark_2_gpu, Real_benchmark_4_gpu,
    Real_benchmark_8_gpu, Accuracy_benchmark_8_gpu,
    Real_run_and_report_benchmark, Accuracy_run_and_report_benchmark,
    Real_setup, Accuracy_setup, base__setup, _get_model_dir,
    _report_benchmark, _train_squad, _evaluate_squad, flagsaver,
    _read_training_summary_from_file, _read_input_meta_data_from_file,
    _read_predictions_dataset_from_file, _read_predictions_from_file,
    _get_distribution_strategy, set_num_gpus, setitem, deref, new_object,
    get_attr, get_flag, as_path, set_flag, set_flags, set_self, time, call,
    lift, bind, ret, raise, gets, modify, start, log;
  cbn; unfold logged_result; cbn.

(** The end of a symbolic run that was assumed to return. *)
Ltac returned :=
  let H := fresh "H" in
  intros H; first [ discriminate H | inversion H; subst; clear H ].

Ltac read_log := cbn; rewrite <- ?app_assoc; cbn; reflexivity.

(** C5: a returning run of [_evaluate_squad] has predicted, then read the
    evaluation dataset and the file [predictions.json] of [FLAGS.model_dir],
    applied [squad_evaluate_v1_1.evaluate] to the ['data'] field of the
    former and to the latter, and stored the ['f1'] entry of the result in
    [self.eval_metrics]; the flags are as before, and nothing else of the
    metrics reaches the benchmark object or the store. *)
Theorem evaluate_squad_reports_f1 {W} (fw : Framework W)
    (s s' : St (W * list event)) :
  _evaluate_squad (traced fw) s = (Return tt, s') ->
  exists meta_path n bytes meta strategy fl model_dir dataset_text
         dataset_json dataset predictions_text predictions metrics f1,
    flags s !! "input_meta_data_path" = Some (PyStr meta_path)
    /\ num_gpus (self s) = Some n
    /\ log s'
       = (log s ++
          [EvRead meta_path "rb" (Return bytes);
           EvGetStrategy "mirrored" n (Return strategy);
           EvPredictSquad (flags s) strategy meta (Return fl);
           EvRead SQUAD_PREDICT_FILE "r" (Return dataset_text);
           EvRead (os_path_join model_dir "predictions.json") "r"
             (Return predictions_text)])%list
    /\ decode_document fw bytes = Return meta
    /\ fl !! "model_dir" = Some (PyStr model_dir)
    /\ json_loads fw dataset_text = Return dataset_json
    /\ json_getitem dataset_json "data" = Return dataset
    /\ json_loads fw predictions_text = Return predictions
    /\ evaluate fw dataset predictions = Return metrics
    /\ metrics !! "f1" = Some f1
    /\ self s'
       = {| num_gpus := num_gpus (self s); eval_metrics := Some f1;
            timer_callback := timer_callback (self s) |}
    /\ flags s' = flags s
    /\ heap s' = (heap s ++ [meta; dataset_json; predictions])%list.
Proof.
  unfold_program.
  repeat run_step W; returned.
  do 14 eexists. split_and!.
  all: first [ reflexivity | read_log | eassumption
             | solve [eauto using decode_document_eq]
             | cbn; congruence ].
Qed.

(** What a returning run of [BertSquadBenchmarkReal._run_and_report_benchmark]
    did, call by call. *)
Lemma Real_run_returns {W} (fw : Framework W) (s s' : St (W * list event)) :
  Real_run_and_report_benchmark (traced fw) s = (Return tt, s') ->
  exists t0 t1 meta_path n timer bytes meta strategy fl model_dir
         summary_bytes summary,
    flags s !! "input_meta_data_path" = Some (PyStr meta_path)
    /\ num_gpus (self s) = Some n
    /\ timer_callback (self s) = Some timer
    /\ flags s !! "model_dir" = Some (PyStr model_dir)
    /\ log s'
       = (log s ++
          [EvTime t0;
           EvRead meta_path "rb" (Return bytes);
           EvGetStrategy "mirrored" n (Return strategy);
           EvTrainSquad (flags s) strategy meta [timer] (Return fl);
           EvTime t1;
           EvRead (os_path_join model_dir "training_summary.txt") "rb"
             (Return summary_bytes);
           EvReport (flags s) summary (PrimFloat.sub t1 t0) (PyInt 0)
             (PyInt 1) (Return tt)])%list
    /\ decode_document fw bytes = Return meta
    /\ decode_document fw summary_bytes = Return summary
    /\ flags s' = flags s
    /\ self s' = self s
    /\ heap s' = (heap s ++ [meta; summary])%list.
Proof.
  unfold_program.
  repeat run_step W; returned.
  do 12 eexists. split_and!.
  all: first [ reflexivity | read_log | eassumption
             | solve [eauto using decode_document_eq]
             | cbn; congruence ].
Qed.

(** The same for [BertSquadAccuracy._run_and_report_benchmark]. *)
Lemma Accuracy_run_returns {W} (fw : Framework W)
    (s s' : St (W * list event)) :
  Accuracy_run_and_report_benchmark (traced fw) s = (Return tt, s') ->
  exists t0 t1 meta_path n timer bytes1 meta1 strategy1 fl1 bytes2 meta2
         strategy2 fl2 predictions_dir dataset_text dataset_json dataset
         predictions_text predictions metrics f1 model_dir summary_bytes
         summary stats,
    flags s !! "input_meta_data_path" = Some (PyStr meta_path)
    /\ num_gpus (self s) = Some n
    /\ timer_callback (self s) = Some timer
    /\ flags s !! "model_dir" = Some (PyStr model_dir)
    /\ log s'
       = (log s ++
          [EvTime t0;
           EvRead meta_path "rb" (Return bytes1);
           EvGetStrategy "mirrored" n (Return strategy1);
           EvTrainSquad (flags s) strategy1 meta1 [timer] (Return fl1);
           EvRead meta_path "rb" (Return bytes2);
           EvGetStrategy "mirrored" n (Return strategy2);
           EvPredictSquad (flags s) strategy2 meta2 (Return fl2);
           EvRead SQUAD_PREDICT_FILE "r" (Return dataset_text);
           EvRead (os_path_join predictions_dir "predictions.json") "r"
             (Return predictions_text);
           EvTime t1;
           EvRead (os_path_join model_dir "training_summary.txt") "rb"
             (Return summary_bytes);
           EvReport (flags s) stats (PrimFloat.sub t1 t0) (PyFloat 0.900)
             (PyFloat 0.908) (Return tt)])%list
    /\ decode_document fw bytes1 = Return meta1
    /\ decode_document fw bytes2 = Return meta2
    /\ fl2 !! "model_dir" = Some (PyStr predictions_dir)
    /\ json_loads fw dataset_text = Return dataset_json
    /\ json_getitem dataset_json "data" = Return dataset
    /\ json_loads fw predictions_text = Return predictions
    /\ evaluate fw dataset predictions = Return metrics
    /\ metrics !! "f1" = Some f1
    /\ decode_document fw summary_bytes = Return summary
    /\ json_setitem summary "eval_metrics" (JFloat f1) = Return stats
    /\ flags s' = flags s
    /\ self s'
       = {| num_gpus := num_gpus (self s); eval_metrics := Some f1;
            timer_callback := timer_callback (self s) |}
    /\ heap s'
       = (heap s ++ [meta1; meta2; dataset_json; predictions; stats])%list.
Proof.
  unfold_program.
  repeat run_step W; returned.
  do 25 eexists. split_and!.
  all: first [ reflexivity | read_log | eassumption
             | solve [eauto using decode_document_eq]
             | cbn; congruence ].
Qed.

Lemma getitem_setitem (obj : json) (key : string) (v : json) (obj' : json) :
  json_setitem obj key v = Return obj' ->
  json_getitem obj' key = Return v.
Proof.
  destruct obj; try discriminate.
  intros [= <-]. cbn. by rewrite lookup_insert_eq.
Qed.

(** The interval of the accuracy test is closed: both thresholds pass,
    their neighbours outside do not. *)
Example thresholds_are_included :
  map (fun score =>
         accuracy_within_thresholds (JObj {[ "eval_metrics" := JFloat score ]})
           (PyFloat 0.900) (PyFloat 0.908))
    [PrimFloat.next_down 0.900; 0.900; 0.905; 0.908; PrimFloat.next_up 0.908]%float
  = [Some false; Some true; Some true; Some true; Some false].
Proof. vm_compute. reflexivity. Qed.

Lemma thresholds_after_setitem (summary stats : json) (f1 lo hi : float) :
  json_setitem summary "eval_metrics" (JFloat f1) = Return stats ->
  accuracy_within_thresholds stats (PyFloat lo) (PyFloat hi)
  = Some (PrimFloat.leb lo f1 && PrimFloat.leb f1 hi).
Proof.
  destruct summary; try discriminate.
  intros [= <-]. cbn. by rewrite lookup_insert_eq.
Qed.

(** The part of a benchmark method that comes before
    [_run_and_report_benchmark]. *)
Ltac unfold_method :=
  unfold run_method,
    Real_benchmark_1_gpu, Real_benchmark_2_gpu, Real_benchmark_4_gpu,
    Real_benchmark_8_gpu, Accuracy_benchmark_8_gpu,
    Real_setup, Accuracy_setup, base__setup, _get_model_dir, set_num_gpus,
    set_flag, set_flags, set_self, call, bind, ret, gets, modify, start;
  cbn; unfold logged_result; cbn.

#[local] Arguments Real_run_and_report_benchmark : simpl never.
#[local] Arguments Accuracy_run_and_report_benchmark : simpl never.

(** C1: a returning run of [BertSquadAccuracy.benchmark_8_gpu] trains from
    [PRETRAINED_CHECKPOINT_PATH], then evaluates, and reports statistics
    whose [eval_metrics] is the F1 score of the evaluation, with
    [min_accuracy=0.900] and [max_accuracy=0.908]; the check of the report
    holds exactly when the score lies in the closed interval between
    them. *)
Theorem accuracy_benchmark_reports_f1 {W} (fw : Framework W) (s : St W)
    (s' : St (W * list event)) :
  Accuracy_benchmark_8_gpu (traced fw) (start s) = (Return tt, s') ->
  exists setup model_dir fl t0 t1 bytes1 meta1 strategy1 timer fl1 bytes2
         meta2 strategy2 fl2 predictions_dir dataset_text dataset_json
         dataset predictions_text predictions metrics f1 summary_bytes
         stats,
    log s'
    = [EvBaseSetup (flags s) (Return setup);
       EvGetModelDir "benchmark_8_gpu_squad" (Return model_dir);
       EvTime t0;
       EvRead SQUAD_FULL_INPUT_META_DATA_PATH "rb" (Return bytes1);
       EvGetStrategy "mirrored" 8 (Return strategy1);
       EvTrainSquad fl strategy1 meta1 [timer] (Return fl1);
       EvRead SQUAD_FULL_INPUT_META_DATA_PATH "rb" (Return bytes2);
       EvGetStrategy "mirrored" 8 (Return strategy2);
       EvPredictSquad fl strategy2 meta2 (Return fl2);
       EvRead SQUAD_PREDICT_FILE "r" (Return dataset_text);
       EvRead (os_path_join predictions_dir "predictions.json") "r"
         (Return predictions_text);
       EvTime t1;
       EvRead (os_path_join model_dir "training_summary.txt") "rb"
         (Return summary_bytes);
       EvReport fl stats (PrimFloat.sub t1 t0) (PyFloat 0.900)
         (PyFloat 0.908) (Return tt)]
    /\ fl !! "init_checkpoint" = Some (PyStr PRETRAINED_CHECKPOINT_PATH)
    /\ fl !! "train_data_path" = Some (PyStr SQUAD_TRAIN_DATA_PATH)
    /\ fl !! "model_dir" = Some (PyStr model_dir)
    /\ fl2 !! "model_dir" = Some (PyStr predictions_dir)
    /\ json_loads fw dataset_text = Return dataset_json
    /\ json_getitem dataset_json "data" = Return dataset
    /\ json_loads fw predictions_text = Return predictions
    /\ evaluate fw dataset predictions = Return metrics
    /\ metrics !! "f1" = Some f1
    /\ json_getitem stats "eval_metrics" = Return (JFloat f1)
    /\ accuracy_within_thresholds stats (PyFloat 0.900) (PyFloat 0.908)
       = Some (PrimFloat.leb 0.900 f1 && PrimFloat.leb f1 0.908).
Proof.
  unfold_method.
  repeat run_call W; try (intros H; discriminate H).
  intros H. apply Accuracy_run_returns in H.
  destruct H as (t0 & t1 & meta_path & n & timer & bytes1 & meta1
    & strategy1 & fl1 & bytes2 & meta2 & strategy2 & fl2 & predictions_dir
    & dataset_text & dataset_json & dataset & predictions_text
    & predictions & metrics & f1 & model_dir & summary_bytes & summary
    & stats & Hmeta & Hn & Htimer & Hdir & Hlog & _ & _ & Hpdir & Hdj
    & Hdata & Hpred & Hmetrics & Hf1 & _ & Hstats & _).
  cbn in Hmeta, Hn, Htimer, Hdir, Hlog.
  simplify_map_eq.
  do 24 eexists. split_and!.
  all: first [ eassumption | reflexivity | by flag_lookup
             | solve [eauto using getitem_setitem, thresholds_after_setitem] ].
Qed.

Lemma accuracy_benchmark_reports_f1_witness :
  ltac:(let run :=
          constr:(Accuracy_benchmark_8_gpu (traced (double double_doc 0.905))
                    (start fresh_state)) in
        match type of (accuracy_benchmark_reports_f1
                         (double double_doc 0.905) fresh_state (snd run)) with
        | _ -> ?conclusion => exact conclusion
        end).
Proof.
  refine (accuracy_benchmark_reports_f1 (double double_doc 0.905)
            fresh_state _ _).
  vm_compute. reflexivity.
Defined.

(** Every run of [_run_and_report_benchmark], returning or not: what it adds
    to the log. *)
Ltac check_log :=
  repeat (progress (cbn; rewrite ?Z.eqb_refl, ?Nat.eqb_refl));
  first [ reflexivity | split; reflexivity ].

Ltac read_any_log :=
  first [ read_log | symmetry; apply app_nil_r ].

Lemma Real_run_shape {W} (fw : Framework W) (s : St (W * list event)) :
  exists tr,
    log (snd (Real_run_and_report_benchmark (traced fw) s))
    = (log s ++ tr)%list
    /\ is_prefix (map kind_of tr)
         [KClock; KRead; KStrategy; KTrain; KClock; KRead; KReport] = true
    /\ strategies_ok (default 0 (num_gpus (self s))) None tr = true.
Proof.
  unfold_program.
  repeat run_step W; eexists; (split; [read_any_log |]); check_log.
Qed.

Lemma Accuracy_run_shape {W} (fw : Framework W) (s : St (W * list event)) :
  exists tr,
    log (snd (Accuracy_run_and_report_benchmark (traced fw) s))
    = (log s ++ tr)%list
    /\ is_prefix (map kind_of tr)
         [KClock; KRead; KStrategy; KTrain; KRead; KStrategy; KPredict;
          KRead; KRead; KClock; KRead; KReport] = true
    /\ strategies_ok (default 0 (num_gpus (self s))) None tr = true.
Proof.
  unfold_program.
  repeat run_step W; eexists; (split; [read_any_log |]); check_log.
Qed.

Lemma function_run_shape {W} (fw : Framework W) (s : St W) :
  let n := default 0 (num_gpus (self s)) in
  strategies_ok n None (log (snd (_train_squad (traced fw) (start s)))) = true
  /\ strategies_ok n None (log (snd (_evaluate_squad (traced fw) (start s))))
     = true.
Proof.
  unfold_program.
  split; repeat run_step W; check_log.
Qed.


(** Every run of a benchmark method, returning or not. *)
Lemma method_run_shape {W} (fw : Framework W) (m : method) (s : St W) :
  let tr := log (snd (run_method (traced fw) m (start s))) in
  is_prefix (map kind_of tr) (order_of m) = true
  /\ strategies_ok (gpus_of m) None tr = true.
Proof.
  destruct m; unfold_method.
  all: repeat run_call W; try (split; reflexivity).
  all: match goal with
       | |- context [Real_run_and_report_benchmark _ ?s1] =>
           destruct (Real_run_shape fw s1) as (tr & -> & Horder & Hstrategy)
       | |- context [Accuracy_run_and_report_benchmark _ ?s1] =>
           destruct (Accuracy_run_shape fw s1)
             as (tr & -> & Horder & Hstrategy)
       end.
  all: split; [exact Horder | exact Hstrategy].
Qed.

(** The log is an observer: a traced run ends as the plain run does, in the
    same state. *)
Lemma Real_run_erased {W} (fw : Framework W) (s : St (W * list event)) :
  let run := Real_run_and_report_benchmark (traced fw) s in
  Real_run_and_report_benchmark fw (erase s) = (fst run, erase (snd run)).
Proof.
  unfold erase. unfold_program.
  repeat run_step W; reflexivity.
Qed.

Lemma Accuracy_run_erased {W} (fw : Framework W) (s : St (W * list event)) :
  let run := Accuracy_run_and_report_benchmark (traced fw) s in
  Accuracy_run_and_report_benchmark fw (erase s) = (fst run, erase (snd run)).
Proof.
  unfold erase. unfold_program.
  repeat run_step W; reflexivity.
Qed.

Lemma method_run_erased {W} (fw : Framework W) (m : method) (s : St W) :
  let run := run_method (traced fw) m (start s) in
  run_method fw m s = (fst run, erase (snd run)).
Proof.
  destruct m; unfold erase; unfold_method.
  all: repeat run_call W; try reflexivity.
  all: match goal with
       | |- context [Real_run_and_report_benchmark (traced _) ?s1] =>
           exact (Real_run_erased fw s1)
       | |- context [Accuracy_run_and_report_benchmark (traced _) ?s1] =>
           exact (Accuracy_run_erased fw s1)
       end.
Qed.

(** C6: for [N] in 1, 2, 4, 8 the method [benchmark_N_gpu] of
    [BertSquadBenchmarkReal], unless its set-up raises, runs
    [_run_and_report_benchmark] in a state where [self.num_gpus] is [N],
    [FLAGS.train_batch_size] is [4 * N] and [FLAGS.model_dir] is what
    [_get_model_dir] returned for ['benchmark_N_gpu_squad']. *)
Theorem real_benchmark_configures_gpus {W} (fw : Framework W) (N : Z) :
  In N [1; 2; 4; 8] ->
  exists m,
    Real_benchmark N = Some m
    /\ forall s : St W,
         match Real_setup fw s with
         | (Raise e, s1) => run_method fw m s = (Raise e, s1)
         | (Return _, s1) =>
             match get_model_dir fw (folder_name N) (world s1) with
             | (Raise e, _) => fst (run_method fw m s) = Raise e
             | (Return d, w) =>
                 exists s2,
                   num_gpus (self s2) = Some N
                   /\ flags s2 !! "train_batch_size" = Some (PyInt (4 * N))
                   /\ flags s2 !! "model_dir" = Some (PyStr d)
                   /\ world s2 = w
                   /\ run_method fw m s
                      = Real_run_and_report_benchmark fw s2
             end
         end.
Proof.
  intros HN. cbn in HN.
  destruct HN as [<- | [<- | [<- | [<- | []]]]];
    eexists; (split; [reflexivity |]); intros s.
  all: match goal with
       | |- context [folder_name ?n] =>
           let name := eval vm_compute in (folder_name n) in
           change (folder_name n) with name
       end.
  all: unfold run_method, Real_benchmark_1_gpu, Real_benchmark_2_gpu,
         Real_benchmark_4_gpu, Real_benchmark_8_gpu, Real_setup, base__setup,
         _get_model_dir, set_num_gpus, set_flag, set_flags, set_self, call,
         bind, ret, gets, modify; cbn.
  all: repeat run_call W; try reflexivity.
  all: refine (ex_intro _ _ (conj _ (conj _ (conj _ (conj _ eq_refl))))); cbn.
  all: first [ reflexivity | by flag_lookup ].
Qed.

Lemma real_benchmark_configures_gpus_witness :
  ltac:(match type of (real_benchmark_configures_gpus
                         (double double_doc 0.905) 4) with
        | _ -> ?conclusion => exact conclusion
        end).
Proof.
  refine (real_benchmark_configures_gpus (double double_doc 0.905) 4 _).
  cbn. right. right. left. reflexivity.
Defined.

(** C7: in every run of a benchmark method, and of [_train_squad] and
    [_evaluate_squad] on their own, every request for a distribution
    strategy names ['mirrored'] with [self.num_gpus] replicas, and every
    training or prediction call runs under the strategy that the latest
    such request returned. *)
Theorem strategy_is_always_mirrored {W} (fw : Framework W) (s : St W) :
  (forall m,
     strategies_ok (gpus_of m) None
       (log (snd (run_method (traced fw) m (start s)))) = true)
  /\ strategies_ok (default 0 (num_gpus (self s))) None
       (log (snd (_train_squad (traced fw) (start s)))) = true
  /\ strategies_ok (default 0 (num_gpus (self s))) None
       (log (snd (_evaluate_squad (traced fw) (start s)))) = true.
Proof.
  split.
  - intros m. apply (method_run_shape fw m s).
  - apply (function_run_shape fw s).
Qed.

Lemma run_returned {S A} (c : outcome A * S) (a : A) :
  fst c = Return a -> c = (Return a, snd c).
Proof. destruct c as [r s]. cbn. by intros ->. Qed.

(** C8: the calls of every run of a benchmark method are an initial
    segment of: set-up, model directory, clock, the training (and
    evaluation) calls, clock, read of the summary, report.  In a run that
    returns, the reported [wall_time_sec] is the second reading of the clock
    minus the first; the calls between the two readings are those of
    [_train_squad] (and [_evaluate_squad]), and the read of the summary and
    the report come after the second reading. *)
Theorem benchmark_steps_in_order {W} (fw : Framework W) (m : method)
    (s : St W) :
  let run := run_method (traced fw) m (start s) in
  is_prefix (map kind_of (log (snd run))) (order_of m) = true
  /\ (fst run = Return tt ->
      exists setup t0 work t1 path bytes fl stats lo hi,
        log (snd run)
        = (setup ++ [EvTime t0] ++ work
             ++ [EvTime t1;
                 EvRead path "rb" (Return bytes);
                 EvReport fl stats (PrimFloat.sub t1 t0) lo hi (Return tt)])%list
        /\ map kind_of setup = [KSetup; KModelDir]
        /\ map kind_of work = timed_steps m).
Proof.
  cbn zeta. split; [apply (method_run_shape fw m s) |].
  intros Hrun. apply run_returned in Hrun. revert Hrun.
  generalize (snd (run_method (traced fw) m (start s))) as s'. intros s'.
  destruct m; unfold_method.
  all: repeat run_call W; try (intros H; discriminate H).
  all: intros H.
  1-4: apply Real_run_returns in H;
    destruct H as (t0 & t1 & ? & ? & ? & ? & ? & ? & ? & ? & ? & ? & _ & _
      & _ & _ & -> & _).
  5: apply Accuracy_run_returns in H;
    destruct H as (t0 & t1 & ? & ? & ? & ? & ? & ? & ? & ? & ? & ? & ? & ?
      & ? & ? & ? & ? & ? & ? & ? & ? & ? & ? & ? & _ & _ & _ & _ & -> & _).
  1-4: eexists [_; _], t0, [_; _; _], t1; do 6 eexists.
  5: eexists [_; _], t0, [_; _; _; _; _; _; _; _], t1; do 6 eexists.
  all: split_and!; [cbn; reflexivity | reflexivity | reflexivity].
Qed.

Lemma decode_document_inv {W} (fw : Framework W) bytes doc :
  decode_document fw bytes = Return doc ->
  exists text,
    utf8_decode fw bytes = Return text /\ json_loads fw text = Return doc.
Proof.
  unfold decode_document.
  destruct (utf8_decode fw bytes) as [text |]; [eauto | discriminate].
Qed.

(** C4: [_read_training_summary_from_file] returns a new object holding
    the decoded JSON of [training_summary.txt] in [FLAGS.model_dir], and it
    returns whenever the flag is a string and the read and the decoding
    return; each [_run_and_report_benchmark] that returns has read that
    file after a training call returned, and reported the object it got,
    which in [BertSquadAccuracy] holds in addition the F1 score under
    ['eval_metrics']. *)
Theorem training_summary_is_read_and_reported {W} (fw : Framework W) :
  (forall (s : St W) (summary : ref) (s' : St W),
     _read_training_summary_from_file fw s = (Return summary, s')
     <-> exists model_dir bytes document w,
           flags s !! "model_dir" = Some (PyStr model_dir)
           /\ gfile_read fw (os_path_join model_dir "training_summary.txt")
                "rb" (world s) = (Return bytes, w)
           /\ decode_document fw bytes = Return document
           /\ summary = length (heap s)
           /\ s' = {| flags := flags s; self := self s;
                      heap := (heap s ++ [document])%list; world := w |})
  /\ (forall (s : St W) (s' : St (W * list event)),
        Real_run_and_report_benchmark (traced fw) (start s) = (Return tt, s')
        -> exists before model_dir bytes document fl wall lo hi,
             log s'
             = (before ++
                [EvRead (os_path_join model_dir "training_summary.txt") "rb"
                   (Return bytes);
                 EvReport fl document wall lo hi (Return tt)])%list
             /\ trained before = true
             /\ flags s !! "model_dir" = Some (PyStr model_dir)
             /\ decode_document fw bytes = Return document
             /\ last (heap s') = Some document)
  /\ (forall (s : St W) (s' : St (W * list event)),
        Accuracy_run_and_report_benchmark (traced fw) (start s)
        = (Return tt, s')
        -> exists before model_dir bytes document f1 stats fl wall lo hi,
             log s'
             = (before ++
                [EvRead (os_path_join model_dir "training_summary.txt") "rb"
                   (Return bytes);
                 EvReport fl stats wall lo hi (Return tt)])%list
             /\ trained before = true
             /\ flags s !! "model_dir" = Some (PyStr model_dir)
             /\ decode_document fw bytes = Return document
             /\ eval_metrics (self s') = Some f1
             /\ json_setitem document "eval_metrics" (JFloat f1) = Return stats
             /\ last (heap s') = Some stats).
Proof.
  split_and!.
  - intros s summary s'. split.
    + unfold_program. repeat run_step W; returned.
      do 4 eexists. split_and!; eauto using decode_document_eq.
    + intros (model_dir & bytes & document & w & Hdir & Hread & Hdoc & -> & ->).
      apply decode_document_inv in Hdoc as (text & Htext & Hdoc).
      unfold_program. by rewrite Hdir, Hread, Htext, Hdoc.
  - intros s s' H. apply Real_run_returns in H.
    destruct H as (t0 & t1 & ? & ? & ? & ? & ? & ? & ? & model_dir & bytes
      & document & _ & _ & _ & Hdir & Hlog & _ & Hdoc & _ & _ & Hheap).
    eexists [_; _; _; _; _]. do 7 eexists. split_and!.
    + rewrite Hlog. cbn. reflexivity.
    + reflexivity.
    + exact Hdir.
    + exact Hdoc.
    + rewrite Hheap. cbn. by rewrite last_app.
  - intros s s' H. apply Accuracy_run_returns in H.
    destruct H as (t0 & t1 & ? & ? & ? & ? & ? & ? & ? & ? & ? & ? & ? & ?
      & ? & ? & ? & ? & ? & ? & f1 & model_dir & bytes & document & stats
      & _ & _ & _ & Hdir & Hlog & _ & _ & _ & _ & _ & _ & _ & _ & Hdoc
      & Hstats & _ & Hself & Hheap).
    eexists [_; _; _; _; _; _; _; _; _; _]. do 9 eexists. split_and!.
    + rewrite Hlog. cbn. reflexivity.
    + reflexivity.
    + exact Hdir.
    + exact Hdoc.
    + rewrite Hself. reflexivity.
    + exact Hstats.
    + rewrite Hheap. cbn.
      by rewrite (last_app _ [_; _; _; _; _]).
Qed.

Lemma training_summary_is_read_and_reported_witness :
  ltac:(let fw := constr:(double double_doc 0.905) in
        let real :=
          constr:(Real_run_and_report_benchmark (traced fw)
                    (start ready_state)) in
        let accuracy :=
          constr:(Accuracy_run_and_report_benchmark (traced fw)
                    (start ready_state)) in
        match type of (proj1 (proj2 (training_summary_is_read_and_reported
                                       fw))
                         ready_state (snd real)) with
        | _ -> ?reported =>
            match type of (proj2 (proj2 (training_summary_is_read_and_reported
                                           fw))
                             ready_state (snd accuracy)) with
            | _ -> ?scored => exact (reported /\ scored)
            end
        end).
Proof.
  split.
  - refine (proj1 (proj2 (training_summary_is_read_and_reported
                            (double double_doc 0.905))) ready_state _ _).
    vm_compute. reflexivity.
  - refine (proj2 (proj2 (training_summary_is_read_and_reported
                            (double double_doc 0.905))) ready_state _ _).
    vm_compute. reflexivity.
Defined.

Lemma benchmark_steps_in_order_witness :
  ltac:(let fw := constr:(double double_doc 0.905) in
        match type of (proj2 (benchmark_steps_in_order fw Real_2_gpu
                                fresh_state)) with
        | _ -> ?timed =>
            match type of (proj2 (benchmark_steps_in_order fw Accuracy_8_gpu
                                    fresh_state)) with
            | _ -> ?scored => exact (timed /\ scored)
            end
        end).
Proof.
  split.
  - refine (proj2 (benchmark_steps_in_order (double double_doc 0.905)
                     Real_2_gpu fresh_state) _).
    vm_compute. reflexivity.
  - refine (proj2 (benchmark_steps_in_order (double double_doc 0.905)
                     Accuracy_8_gpu fresh_state) _).
    vm_compute. reflexivity.
Defined.

Lemma evaluate_squad_reports_f1_witness :
  ltac:(let run :=
          constr:(_evaluate_squad (traced (double double_doc 0.905))
                    (start ready_state)) in
        match type of (evaluate_squad_reports_f1 (double double_doc 0.905)
                         (start ready_state) (snd run)) with
        | _ -> ?conclusion => exact conclusion
        end).
Proof.
  refine (evaluate_squad_reports_f1 (double double_doc 0.905)
            (start ready_state) _ _).
  vm_compute. reflexivity.
Defined.

End SquadBenchmarkFacts.

(** ** The Keras ImageNet test *)

Module KerasImagenetTestFacts.
Import KerasImagenetTest.

#[local] Arguments get_temp_dir : simpl never.

Section TempDir.

Context {W : Type} (fw : Framework W).

(** [mkdtemp] returns the path of the directory it made, which is never the
    empty string. *)
Hypothesis mkdtemp_names_directory :
  forall parent w path w',
    mkdtemp fw parent w = (Return path, w') -> truthy_str path = true.

(** Once [_tempdir] holds a path, [get_temp_dir] only reads it. *)
Lemma get_temp_dir_cached {V} (fv : Framework V) (s : St V) (path : string) :
  _tempdir s = Some path ->
  truthy_str path = true ->
  get_temp_dir fv s = (Return path, s).
Proof.
  intros Hdir Hpath.
  unfold get_temp_dir, bind, gets, ret. cbn.
  rewrite Hdir. cbn. rewrite Hpath. cbn. by rewrite Hdir.
Qed.

Lemma created_app (l l' : list event) :
  created (l ++ l') = (created l ++ created l')%list.
Proof.
  induction l as [| e l IH]; [reflexivity |].
  destruct e as [| ? [] | | | | | | | | | |]; cbn; by rewrite ?IH.
Qed.

Lemma removed_app (l l' : list event) :
  removed (l ++ l') = (removed l ++ removed l')%list.
Proof.
  induction l as [| e l IH]; [reflexivity |].
  destruct e; cbn; by rewrite ?IH.
Qed.

(** What one call of [get_temp_dir] does to an instance, whatever it had
    cached: it returns a cached path untouched, or it asks for the test
    root and makes one directory under it. *)
Lemma get_temp_dir_step (s : St (W * list event)) :
  (exists path,
     _tempdir s = Some path /\ truthy_str path = true
     /\ get_temp_dir (traced fw) s = (Return path, s))
  \/ (truthy_opt_str (_tempdir s) = false
      /\ exists r s',
           get_temp_dir (traced fw) s = (r, s')
           /\ ((exists e, r = Raise e
                  /\ _tempdir s' = _tempdir s
                  /\ created (log s') = created (log s)
                  /\ removed (log s') = removed (log s))
               \/ (exists root path,
                     r = Return path
                     /\ truthy_str path = true
                     /\ _tempdir s' = Some path
                     /\ log s'
                        = (log s ++ [EvGetTempDir (Return root);
                                     EvMkdtemp root (Return path)])%list))).
Proof.
  destruct (truthy_opt_str (_tempdir s)) eqn:Hcached.
  - left. destruct (_tempdir s) as [path |] eqn:Hdir; [| discriminate].
    exists path. split_and!; [reflexivity | exact Hcached |].
    by apply get_temp_dir_cached.
  - right. split; [reflexivity |].
    unfold get_temp_dir, bind, gets, ret, modify, call. cbn.
    rewrite Hcached. cbn. unfold logged_result. cbn.
    destruct (GetTempDir fw (world s).1) as [[root | e] w] eqn:Hroot; cbn.
    + destruct (mkdtemp fw root w) as [[path | e] w'] eqn:Hmk; cbn.
      * do 2 eexists. split; [reflexivity |]. right.
        exists root, path. split_and!; try reflexivity.
        -- eapply mkdtemp_names_directory, Hmk.
        -- unfold log. cbn. by rewrite <- app_assoc.
      * do 2 eexists. split; [reflexivity |]. left.
        exists e. unfold log. cbn.
        rewrite !created_app, !removed_app. cbn. by rewrite !app_nil_r.
    + do 2 eexists. split; [reflexivity |]. left.
      exists e. unfold log. cbn.
      rewrite !created_app, !removed_app. cbn. by rewrite !app_nil_r.
Qed.

Lemma get_temp_dir_reachable (s : St (W * list event)) :
  reachable s -> reachable (snd (get_temp_dir (traced fw) s)).
Proof.
  intros Hs.
  destruct (get_temp_dir_step s)
    as [(path & Hdir & Hpath & ->) | (Hnone & r & s' & -> & Hcall)];
    [exact Hs |].
  cbn. destruct Hs as [[_ Hmade] | (path & Hdir & Hpath & _)].
  - destruct Hcall as [(e & _ & Hdir & Hsame & _)
                      | (root & path & _ & Hpath & Hdir & Hlog)].
    + left. split; [by rewrite Hdir | by rewrite Hsame].
    + right. exists path. split_and!; [done | done |].
      rewrite Hlog, created_app, Hmade. cbn. lia.
  - rewrite Hdir in Hnone. cbn in Hnone. congruence.
Qed.

Lemma after_calls_reachable (n : nat) (s : St (W * list event)) :
  reachable s -> reachable (after_calls (traced fw) n s).
Proof.
  revert s. induction n as [| n IH]; intros s Hs; [exact Hs |].
  cbn. apply IH, get_temp_dir_reachable, Hs.
Qed.

Lemma reachable_created (s : St (W * list event)) :
  reachable s -> (length (created (log s)) <= 1)%nat.
Proof.
  intros [[_ ->] | (_ & _ & _ & Hone)]; [cbn; lia | exact Hone].
Qed.

Lemma repeat_call_cached (n : nat) (s : St (W * list event))
    (path : string) :
  _tempdir s = Some path ->
  truthy_str path = true ->
  repeat_call (get_temp_dir (traced fw)) n path s = (Return path, s).
Proof.
  intros Hdir Hpath. induction n as [| n IH]; [reflexivity |].
  cbn. unfold bind. by rewrite (get_temp_dir_cached _ _ path).
Qed.

(** [tearDown] on an instance that has its directory. *)
Lemma tearDown_cached (s s' : St (W * list event)) (path : string) :
  _tempdir s = Some path ->
  truthy_str path = true ->
  tearDown (traced fw) s = (Return tt, s') ->
  _tempdir s' = Some path
  /\ removed (log s') = (removed (log s) ++ [path])%list
  /\ created (log s') = created (log s).
Proof.
  intros Hdir Hpath.
  unfold tearDown, bind, call. cbn. unfold logged_result. cbn.
  destruct (super_tearDown fw (world s).1) as [[[] | e] w];
    [| intros [=]].
  rewrite (get_temp_dir_cached _ _ path) by done. cbn.
  destruct (rmtree fw path w) as [[[] | e] w']; intros [= <-]. cbn.
  split; [exact Hdir |]. unfold log. cbn.
  rewrite !removed_app, !created_app. cbn. by rewrite !app_nil_r.
Qed.

(** The first call on a new instance, when the test root is told and the
    directory is made. *)
Lemma get_temp_dir_first (s : St W) (root path : string) (w1 w2 : W) :
  truthy_opt_str (_tempdir s) = false ->
  GetTempDir fw (world s) = (Return root, w1) ->
  mkdtemp fw root w1 = (Return path, w2) ->
  get_temp_dir (traced fw) (start s)
  = (Return path,
     {| _tempdir := Some path;
        world := (w2, [EvGetTempDir (Return root);
                       EvMkdtemp root (Return path)]) |}).
Proof.
  intros Hnone Hroot Hmk.
  unfold get_temp_dir, bind, gets, ret, modify, call, start. cbn.
  rewrite Hnone. cbn. unfold logged_result. cbn.
  rewrite Hroot. cbn. by rewrite Hmk.
Qed.

(** [tearDown] returns when its two calls do. *)
Lemma tearDown_returns (s : St (W * list event)) (path : string)
    (w1 w2 : W) :
  _tempdir s = Some path ->
  truthy_str path = true ->
  super_tearDown fw (fst (world s)) = (Return tt, w1) ->
  rmtree fw path w1 = (Return tt, w2) ->
  tearDown (traced fw) s
  = (Return tt,
     {| _tempdir := Some path;
        world := (w2, (log s ++ [EvSuperTearDown (Return tt);
                                 EvRmtree path (Return tt)])%list) |}).
Proof.
  intros Hdir Hpath Hsuper Hrm.
  unfold tearDown, bind, call. cbn. unfold logged_result. cbn.
  rewrite Hsuper. cbn.
  rewrite (get_temp_dir_cached _ _ path) by (cbn; assumption). cbn.
  rewrite Hrm. cbn. unfold log. by rewrite Hdir, <- app_assoc.
Qed.

(** C9: the first call of [get_temp_dir] on a test instance makes one
    directory under the test root; every later call returns the same path
    and neither calls anything nor changes the instance; however often the
    method is called, at most one directory has been made for the instance;
    and a [tearDown] that returns has called [rmtree] once, on that
    directory.  The first call does return, with the path that [mkdtemp]
    made, when the test root is told and [mkdtemp] returns; and [tearDown]
    does return, after [rmtree] on the cached directory, when
    [super().tearDown()] and [rmtree] return. *)
Theorem get_temp_dir_is_idempotent (s : St W) :
  (forall path s1,
     get_temp_dir (traced fw) (start s) = (Return path, s1) ->
     _tempdir s1 = Some path
     /\ (_tempdir s = None ->
         exists root,
           log s1 = [EvGetTempDir (Return root);
                     EvMkdtemp root (Return path)])
     /\ (forall n,
           repeat_call (get_temp_dir (traced fw)) n path s1
           = (Return path, s1))
     /\ (forall s2,
           tearDown (traced fw) s1 = (Return tt, s2) ->
           removed (log s2) = [path]
           /\ created (log s2) = created (log s1)))
  /\ (_tempdir s = None ->
      forall n,
        (length (created (log (after_calls (traced fw) n (start s)))) <= 1)%nat)
  /\ (_tempdir s = None ->
      forall s2,
        tearDown (traced fw) (start s) = (Return tt, s2) ->
        exists path,
          _tempdir s2 = Some path
          /\ created (log s2) = [path]
          /\ removed (log s2) = [path])
  /\ (forall root path w1 w2,
        _tempdir s = None ->
        GetTempDir fw (world s) = (Return root, w1) ->
        mkdtemp fw root w1 = (Return path, w2) ->
        get_temp_dir (traced fw) (start s)
        = (Return path,
           {| _tempdir := Some path;
              world := (w2, [EvGetTempDir (Return root);
                             EvMkdtemp root (Return path)]) |}))
  /\ (forall (s1 : St (W * list event)) path w1 w2,
        _tempdir s1 = Some path ->
        truthy_str path = true ->
        super_tearDown fw (fst (world s1)) = (Return tt, w1) ->
        rmtree fw path w1 = (Return tt, w2) ->
        tearDown (traced fw) s1
        = (Return tt,
           {| _tempdir := Some path;
              world := (w2, (log s1 ++ [EvSuperTearDown (Return tt);
                                        EvRmtree path (Return tt)])%list) |})).
Proof.
  split_and!.
  - intros path s1 Hcall.
    destruct (get_temp_dir_step (start s))
      as [(path' & Hdir & Hpath & Hsame)
         | (Hnone & r & s' & Hrun & Hcase)].
    + rewrite Hsame in Hcall. injection Hcall as <- <-.
      split_and!.
      * exact Hdir.
      * intros Hfresh. cbn in Hdir. congruence.
      * intros n. by apply repeat_call_cached.
      * intros s2 Hdown.
        by destruct (tearDown_cached _ _ _ Hdir Hpath Hdown) as (_ & -> & ->).
    + rewrite Hrun in Hcall. injection Hcall as -> ->.
      destruct Hcase as [(e & [=] & _) | (root & path' & [= <-] & Hpath & Hdir & Hlog)].
      split_and!.
      * exact Hdir.
      * intros _. exists root. exact Hlog.
      * intros n. by apply repeat_call_cached.
      * intros s2 Hdown.
        destruct (tearDown_cached _ _ _ Hdir Hpath Hdown) as (_ & -> & ->).
        by rewrite Hlog.
  - intros Hfresh n.
    apply reachable_created, after_calls_reachable.
    left. cbn. by rewrite Hfresh.
  - intros Hfresh s2.
    unfold tearDown, bind, call. cbn. unfold logged_result. cbn.
    destruct (super_tearDown fw (world s)) as [[[] | e] w]; [| intros [=]].
    match goal with
    | |- context [get_temp_dir _ ?s0] =>
        destruct (get_temp_dir_step s0)
          as [(path & Hdir & _) | (_ & r & s' & -> & Hcase)]
    end.
    { cbn in Hdir. congruence. }
    destruct Hcase as [(e & -> & _) | (root & path & -> & Hpath & Hdir & Hlog)];
      [intros [=] |].
    cbn. destruct (rmtree fw path (world s').1) as [[[] | e] w'];
      intros [= <-].
    exists path. cbn. split; [exact Hdir |].
    unfold log in *. cbn in *.
    rewrite created_app, removed_app, Hlog. cbn. done.
  - intros root path w1 w2 Hfresh. apply get_temp_dir_first.
    by rewrite Hfresh.
  - intros s1 path w1 w2. apply tearDown_returns.
Qed.

End TempDir.

Lemma os_path_join_truthy (a b : string) :
  truthy_str b = true -> truthy_str (os_path_join a b) = true.
Proof.
  intros Hb. unfold os_path_join.
  destruct (String.prefix "/" b); [exact Hb |].
  destruct (negb (truthy_str a) || ends_with_slash a);
    destruct a; cbn; done.
Qed.

Lemma double_names_directory (gpus : Z) parent w path w' :
  mkdtemp (double gpus) parent w = (Return path, w') ->
  truthy_str path = true.
Proof. intros [= <- _]. by apply os_path_join_truthy. Qed.

Lemma get_temp_dir_is_idempotent_witness :
  let fw := double 1 in
  let path := "/tmp/test/tmp0" in
  let first := get_temp_dir (traced fw) (start fresh_instance) in
  let down := tearDown (traced fw) (snd first) in
  first
  = (Return path,
     {| _tempdir := Some path;
        world := ([path], [EvGetTempDir (Return "/tmp/test");
                           EvMkdtemp "/tmp/test" (Return path)]) |})
  /\ repeat_call (get_temp_dir (traced fw)) 3 path (snd first)
     = (Return path, snd first)
  /\ fst down = Return tt
  /\ removed (log (snd down)) = [path]
  /\ created (log (snd down)) = [path]
  /\ fst (world (snd down)) = []
  /\ (length (created (log (after_calls (traced fw) 5
                              (start fresh_instance)))) <= 1)%nat.
Proof.
  cbv zeta.
  destruct (get_temp_dir_is_idempotent (double 1) (double_names_directory 1) fresh_instance)
    as (Hcalls & Hmany & _ & Hfirst & Hdown).
  pose proof (Hfirst "/tmp/test" "/tmp/test/tmp0" [] ["/tmp/test/tmp0"]
                eq_refl eq_refl eq_refl) as Hrun.
  destruct (Hcalls _ _ Hrun) as (_ & _ & Hsame & Hremoved).
  pose proof (Hdown
                {| _tempdir := Some "/tmp/test/tmp0";
                   world := (["/tmp/test/tmp0"],
                             [EvGetTempDir (Return "/tmp/test");
                              EvMkdtemp "/tmp/test"
                                (Return "/tmp/test/tmp0")]) |}
                "/tmp/test/tmp0" ["/tmp/test/tmp0"] []
                eq_refl eq_refl eq_refl eq_refl) as Hquit.
  rewrite Hrun. cbn [snd] in *.
  destruct (Hremoved _ Hquit) as (Hgone & Hmade).
  rewrite Hquit. cbn [fst snd].
  split_and!.
  - reflexivity.
  - apply Hsame.
  - reflexivity.
  - exact Hgone.
  - rewrite Hmade. reflexivity.
  - reflexivity.
  - apply Hmany. reflexivity.
Defined.

(** One step of a symbolic run of a test method. *)
Ltac run_call W :=
  match goal with
  | |- context [match ?c with pair _ _ => _ end] =>
      match type of c with
      | (outcome _ * W)%type =>
          let r := fresh "r" in
          let w' := fresh "w" in
          destruct c as [r w'] eqn:?; destruct r; cbn
      | (Z * W)%type =>
          let n := fresh "n" in
          let w' := fresh "w" in
          destruct c as [n w'] eqn:?; cbn
      end
  | |- context [if ?b then _ else _] => destruct b eqn:?; cbn
  | |- context [match ?o with Some _ => _ | None => _ end] =>
      destruct o eqn:?; cbn
  end.

Ltac unfold_test :=
  unfold run_test, test_end_to_end_no_dist_strat,
    test_end_to_end_graph_no_dist_strat, test_end_to_end_1_gpu,
    test_end_to_end_graph_1_gpu, test_end_to_end_2_gpu,
    test_end_to_end_xla_2_gpu, test_end_to_end_2_gpu_fp16,
    test_end_to_end_xla_2_gpu_fp16, test_end_to_end_graph_2_gpu,
    test_end_to_end_graph_xla_2_gpu, get_temp_dir, skipTest,
    context_num_gpus, call, bind, ret, raise, gets, modify, start, log;
  cbn; unfold logged_result; cbn.

(** The log is an observer: a traced test ends as the plain test does. *)
Lemma test_run_erased {W} (fw : Framework W) (t : test) (s : St W) :
  let run := run_test (traced fw) t (start s) in
  run_test fw t s = (fst run, erase (snd run)).
Proof.
  destruct t; unfold erase; unfold_test.
  all: destruct s as [tempdir w0]; cbn.
  all: repeat run_call W; reflexivity.
Qed.

(** C10: in every run of a test case, [integration.run_synthetic] is only
    called after a GPU count of at least the number the case requires was
    read; if the count read first is smaller, the case is skipped and the
    model is never run; the cases without distribution strategy never read
    the GPU count and reach the model run unless a call before it raised. *)
Theorem tests_skip_without_enough_gpus {W} (fw : Framework W) (t : test)
    (s : St W) :
  let run := run_test (traced fw) t (start s) in
  let tr := log (snd run) in
  runs_guarded (required_gpus t) (required_gpus t <=? 0) tr = true
  /\ (forall n,
        head (gpu_counts tr) = Some n ->
        n < required_gpus t ->
        is_skip (fst run) = true /\ model_runs tr = 0%nat)
  /\ (required_gpus t = 0 ->
      gpu_counts tr = []
      /\ (Nat.eqb (model_runs tr) 1 || existsb raised tr = true)).
Proof.
  destruct t; unfold_test.
  all: repeat run_call W.
  all: repeat match goal with
              | H : (_ <? _) = false |- _ => apply Z.ltb_ge in H
              | H : (_ <? _) = true |- _ => apply Z.ltb_lt in H
              end.
  all: repeat match goal with
              | |- context [?k <=? ?n] =>
                  rewrite (proj2 (Z.leb_le k n)) by lia
              end.
  all: split_and!;
    [ reflexivity
    | intros k [= <-] Hfew; first [ by split | lia ]
    | first [ intros _; by split | intros [=] ] ].
Qed.

Lemma tests_skip_without_enough_gpus_witness :
  let run := run_test (traced (double 1)) two_gpu (start fresh_instance) in
  is_skip (fst run) = true /\ model_runs (log (snd run)) = 0%nat.
Proof.
  exact (proj1 (proj2 (tests_skip_without_enough_gpus (double 1) two_gpu
                         fresh_instance)) 1 eq_refl eq_refl).
Defined.

End KerasImagenetTestFacts.

(** ** Pre-training: the input pipeline and the run of [main] *)

Module RunPretrainingRuns.
Import RunPretraining.
Import RunPretrainingFacts.

(** [int(a / b)] of an exact multiple is the quotient, while the quotient
    fits the significand of a binary64 number. *)
Lemma div_half_even_exact (k d : Z) : 0 < d -> div_half_even (k * d) d = k.
Proof.
  intros Hd. unfold div_half_even.
  rewrite Z.div_mul by lia. rewrite Z.mod_mul by lia.
  destruct d; [lia | reflexivity | lia].
Qed.

(** The exponent that [significand] settles on is not positive when the
    quotient is an integer below [2^53]. *)
Lemma significand_exact (Q d : Z) :
  0 < Q < 2 ^ 53 -> 0 < d ->
  exists e, e <= 0 /\ significand (Q * d) d = (Q * 2 ^ (- e), e).
Proof.
  intros HQ Hd. unfold significand.
  set (e0 := Z.log2 (Q * d) - Z.log2 d - 52).
  assert (He0 : e0 <= 1).
  { pose proof (Z.log2_mul_above Q d ltac:(lia) ltac:(lia)).
    assert (Z.log2 Q < 53) by (apply Z.log2_lt_pow2; lia).
    unfold e0. lia. }
  clearbody e0.
  assert (Hexact : forall e, e <= 0 ->
            (let '(n', d') :=
               if 0 <=? e then (Q * d, d * 2 ^ e)
               else (Q * d * 2 ^ (- e), d) in
             (div_half_even n' d', e)) = (Q * 2 ^ (- e), e)).
  { intros e He. destruct (0 <=? e) eqn:Hsign.
    - apply Z.leb_le in Hsign. assert (e = 0) as -> by lia.
      change (2 ^ 0) with 1. change (2 ^ (- 0)) with 1.
      rewrite !Z.mul_1_r. f_equal. apply div_half_even_exact, Hd.
    - f_equal. replace (Q * d * 2 ^ (- e)) with (Q * 2 ^ (- e) * d) by lia.
      apply div_half_even_exact, Hd. }
  destruct (0 <=? e0) eqn:Hsign.
  - apply Z.leb_le in Hsign.
    assert (He : e0 = 0 \/ e0 = 1) by lia.
    destruct He as [-> | ->].
    + destruct (Q * d <? d * 2 ^ 0 * 2 ^ 52).
      * exists (-1). split; [lia |]. apply (Hexact (-1)). lia.
      * exists 0. split; [lia |]. apply (Hexact 0). lia.
    + assert (Hlt : (Q * d <? d * 2 ^ 1 * 2 ^ 52) = true).
      { apply Z.ltb_lt. change (2 ^ 1) with 2.
        replace (d * 2 * 2 ^ 52) with (2 ^ 53 * d) by (change (2 ^ 53) with (2 * 2 ^ 52); lia).
        apply Z.mul_lt_mono_pos_r; lia. }
      rewrite Hlt. exists 0. split; [lia |]. apply (Hexact 0). lia.
  - apply Z.leb_gt in Hsign.
    destruct (Q * d * 2 ^ (- e0) <? d * 2 ^ 52).
    + exists (e0 - 1). split; [lia |]. apply (Hexact (e0 - 1)). lia.
    + exists e0. split; [lia |]. apply (Hexact e0). lia.
Qed.

Lemma int_of_truediv_exact (q b : Z) :
  b <> 0 -> Z.abs q < 2 ^ 53 -> int_of_truediv (q * b) b = Return q.
Proof.
  intros Hb Hq. unfold int_of_truediv.
  apply Z.eqb_neq in Hb as Hb'. rewrite Hb'.
  destruct (q * b =? 0) eqn:Hzero.
  - apply Z.eqb_eq in Hzero. f_equal. nia.
  - apply Z.eqb_neq in Hzero.
    assert (Hq0 : q <> 0) by nia.
    rewrite Z.abs_mul.
    destruct (significand_exact (Z.abs q) (Z.abs b)) as (e & He & ->);
      [lia | lia |].
    assert (Hlog : Z.log2 (Z.abs q * 2 ^ (- e)) = - e + Z.log2 (Z.abs q)).
    { apply Z.log2_mul_pow2; lia. }
    assert (Z.log2 (Z.abs q) < 53) by (apply Z.log2_lt_pow2; lia).
    replace (1024 <=? Z.log2 (Z.abs q * 2 ^ (- e)) + e) with false
      by (symmetry; apply Z.leb_gt; lia).
    f_equal.
    assert (Hmag : (if 0 <=? e then Z.abs q * 2 ^ (- e) * 2 ^ e
                    else Z.abs q * 2 ^ (- e) / 2 ^ (- e)) = Z.abs q).
    { destruct (0 <=? e) eqn:Hsign.
      - apply Z.leb_le in Hsign. assert (e = 0) as -> by lia. cbn. lia.
      - apply Z.div_mul. apply Z.pow_nonzero; lia. }
    rewrite Hmag, Z.sgn_mul.
    destruct (Z.sgn_spec b) as [[? ->] | [[? ->] | [? ->]]];
      destruct (Z.sgn_spec q) as [[? ->] | [[? ->] | [? ->]]]; lia.
Qed.

(** X1: under a TPU strategy, a batch size that is a multiple of the
    replica count gives the input function that builds the dataset with the
    batch size of one replica, [batch_size / num_replicas_in_sync]; nothing
    is called and no dataset is built until that function is called. *)
Theorem get_pretrain_input_data_per_replica
    {W} (tf : TF W) (input_file_pattern : option string)
    (seq_length max_predictions_per_seq per_replica : Z)
    (strategy : Strategy) (w : W) :
  cls strategy = TPUStrategy ->
  num_replicas_in_sync strategy <> 0 ->
  Z.abs per_replica < 2 ^ 53 ->
  get_pretrain_input_data tf input_file_pattern seq_length
    max_predictions_per_seq (per_replica * num_replicas_in_sync strategy)
    strategy w
  = (Return (DatasetFn (_dataset_fn tf input_file_pattern seq_length
                          max_predictions_per_seq per_replica)), w).
Proof.
  intros Htpu Hn Hsmall.
  apply is_TPUStrategy_true in Htpu.
  unfold get_pretrain_input_data. rewrite Htpu.
  unfold bind, lift, py_mod, ret.
  apply Z.eqb_neq in Hn as Hn'. rewrite Hn'.
  rewrite Z.mod_mul by exact Hn. cbn.
  by rewrite int_of_truediv_exact.
Qed.

Lemma get_pretrain_input_data_per_replica_witness :
  get_pretrain_input_data (double "2.0.0" 8) (Some "train.tf_record") 128 20
    (4 * 8) {| cls := TPUStrategy; num_replicas_in_sync := 8 |} tt
  = (Return (DatasetFn (_dataset_fn (double "2.0.0" 8)
                          (Some "train.tf_record") 128 20 4)), tt).
Proof.
  apply (get_pretrain_input_data_per_replica (double "2.0.0" 8)
           (Some "train.tf_record") 128 20 4
           {| cls := TPUStrategy; num_replicas_in_sync := 8 |} tt).
  - reflexivity.
  - vm_compute. discriminate.
  - vm_compute. reflexivity.
Defined.

(** [split_on] and [join_with] are inverse to each other. *)
Lemma split_on_not_nil (c : ascii) (s : string) : split_on c s <> [].
Proof.
  destruct s as [| a s]; cbn; [discriminate |].
  destruct (Ascii.eqb a c); [discriminate |].
  destruct (split_on c s); discriminate.
Qed.

Lemma join_with_cons (sep piece : string) (rest : list string) :
  rest <> [] ->
  join_with sep (piece :: rest) = piece ++ sep ++ join_with sep rest.
Proof. destruct rest; [congruence | reflexivity]. Qed.

Lemma join_with_head (sep : string) (a : ascii) (piece : string)
    (rest : list string) :
  join_with sep (String a piece :: rest)
  = String a (join_with sep (piece :: rest)).
Proof. destruct rest; reflexivity. Qed.

Lemma join_split (c : ascii) (s : string) :
  join_with (String c EmptyString) (split_on c s) = s.
Proof.
  induction s as [| a s IH]; [reflexivity |].
  cbn [split_on]. destruct (Ascii.eqb a c) eqn:Hac.
  - apply Ascii.eqb_eq in Hac as ->.
    rewrite join_with_cons by apply split_on_not_nil.
    cbn. by rewrite IH.
  - pose proof (split_on_not_nil c s) as Hne.
    destruct (split_on c s) as [| piece rest]; [congruence |].
    by rewrite join_with_head, IH.
Qed.

Lemma split_pieces_free (c : ascii) (s : string) :
  forallb (fun piece => negb (occurs c piece)) (split_on c s) = true.
Proof.
  induction s as [| a s IH]; [reflexivity |].
  cbn [split_on]. destruct (Ascii.eqb a c) eqn:Hac.
  - cbn. exact IH.
  - pose proof (split_on_not_nil c s) as Hne.
    destruct (split_on c s) as [| piece rest]; [congruence |].
    cbn in *. rewrite Hac. exact IH.
Qed.

(** The calls of [glob_all]: one [gfile.glob] per pattern, in order, up to
    the first that raises. *)
Lemma glob_all_trace {W} (tf : TF W) (patterns found : list string)
    (w : W) (l : list event) :
  let '(r, (_, l')) := glob_all (traced tf) patterns found (w, l) in
  match r with
  | Return _ => l' = (l ++ map EvGlob patterns)%list
  | Raise _ =>
      exists k,
        (k < length patterns)%nat
        /\ l' = (l ++ map EvGlob (take (S k) patterns))%list
  end.
Proof.
  revert found w l.
  induction patterns as [| p patterns IH]; intros found w l.
  - cbn. by rewrite app_nil_r.
  - cbn. unfold bind, logged. cbn.
    destruct (gfile_glob tf p w) as [[files | e] w']; cbn.
    + specialize (IH (found ++ files)%list w' (l ++ [EvGlob p])%list).
      destruct (glob_all (traced tf) patterns (found ++ files) _)
        as [[r | e] [w'' l']].
      * rewrite IH. by rewrite <- app_assoc.
      * destruct IH as (k & Hk & ->). exists (S k). split; [lia |].
        by rewrite <- app_assoc.
    + exists 0%nat. split; [lia |]. cbn. by rewrite take_0.
Qed.

(** X2: [_dataset_fn] splits the file pattern at its commas, so that joining
    the pieces with commas gives the pattern back and no piece holds a comma;
    it calls [gfile.glob] once per piece, in order, and then builds the
    dataset once, with the sequence length, prediction count and batch size
    it was given; if a glob raises, the later pieces are not globbed and no
    dataset is built. *)
Theorem dataset_fn_globs_each_pattern {W} (tf : TF W)
    (input_file_pattern : string)
    (seq_length max_predictions_per_seq batch_size : Z) (w : W) :
  let patterns := split_on ","%char input_file_pattern in
  let '(r, (_, tr)) :=
    _dataset_fn (traced tf) (Some input_file_pattern) seq_length
      max_predictions_per_seq batch_size (w, []) in
  join_with "," patterns = input_file_pattern
  /\ forallb (fun p => negb (occurs ","%char p)) patterns = true
  /\ ((exists files,
         tr = (map EvGlob patterns ++
               [EvCreatePretrainDataset files seq_length
                  max_predictions_per_seq batch_size])%list)
      \/ (exists k e,
            (k < length patterns)%nat
            /\ tr = map EvGlob (take (S k) patterns)
            /\ r = Raise e)).
Proof.
  cbn zeta. unfold _dataset_fn, bind.
  pose proof (glob_all_trace tf (split_on ","%char input_file_pattern) [] w [])
    as Hglob.
  destruct (glob_all (traced tf) _ [] (w, [])) as [[files | e] [w' l']].
  - cbn in Hglob. subst l'. cbn. unfold logged. cbn.
    destruct (create_pretrain_dataset tf files _ _ _ w') as [r w''].
    split_and!; [apply join_split | apply split_pieces_free |].
    left. by exists files.
  - destruct Hglob as (k & Hk & ->).
    split_and!; [apply join_split | apply split_pieces_free |].
    right. by exists k, e.
Qed.

(** A symbolic run of [main] by version, model directory and strategy
    type. *)
Ltac run_main W :=
  unfold main_run, main, run_bert_pretrain, run_customized_training, bind,
    gets, assert_, modify, ret, raise; cbn;
  match goal with
  | |- context [String.prefix "2." ?v] => destruct (String.prefix "2." v)
  end; cbn; [| try done];
  match goal with
  | |- context [truthy_opt_str ?d] => destruct (truthy_opt_str d) eqn:?
  end; cbn;
  match goal with
  | |- context [String.eqb ?t "mirror"] =>
      destruct (String.eqb t "mirror") eqn:?; cbn;
      [| destruct (String.eqb t "tpu") eqn:?; cbn ]
  end;
  unfold call, logged; cbn; repeat run_call W.

(** X3: the calls that [main] makes itself are a prefix of one fixed order:
    the strategy is made (after the TPU system was initialised for 'tpu'),
    its replica count is printed, the BERT configuration is read, the
    training is announced and the training loop is entered, each only after
    the calls before it returned.  The calls that the training loop makes
    through the two closures it is handed, the input function and the model
    function, are the loop's own and are not in this log.  Under a
    TensorFlow version that does not start with "2." [main] raises
    [AssertionError] and leaves the flags as they were. *)
Theorem main_calls_in_order {W} (tf : TF W) (fl : Flags) (w : W) :
  is_prefix (map kind_of (snd (main_run tf fl w)))
    (main_order (strategy_type fl)) = true
  /\ (String.prefix "2." (tf_version tf w) = false ->
      main tf {| flags := fl; world := w |}
      = (Raise AssertionError, {| flags := fl; world := w |})).
Proof.
  split.
  - unfold main_order. run_main W.
    all: reflexivity.
  - intros Hversion. unfold main, bind, gets, assert_. cbn.
    by rewrite Hversion.
Qed.

Lemma main_calls_in_order_witness :
  main (double "1.15.0" 8) {| flags := default_flags; world := tt |}
  = (Raise AssertionError, {| flags := default_flags; world := tt |}).
Proof.
  apply (proj2 (main_calls_in_order (double "1.15.0" 8) default_flags tt)).
  vm_compute. reflexivity.
Defined.

Lemma effective_model_dir_truthy (fl : Flags) :
  truthy_str (effective_model_dir fl) = true.
Proof.
  unfold effective_model_dir.
  destruct (model_dir fl) as [d |]; [| reflexivity].
  by destruct (truthy_str d) eqn:Hd.
Qed.

(** X4: in every run of [main] the TPU system is initialised with
    [FLAGS.tpu], the configuration is read from [FLAGS.bert_config_file],
    and the training loop is given the model directory ([FLAGS.model_dir],
    or '/tmp/bert20/' when that is [None] or empty, so never an empty
    path), [FLAGS.num_steps_per_epoch], [FLAGS.num_train_epochs] and
    [use_remote_tpu] ([FLAGS.tpu] for 'tpu', [False] otherwise); the loop
    runs under the strategy whose replica count was printed. *)
Theorem main_wires_flags {W} (tf : TF W) (fl : Flags) (w : W) :
  Forall (wired fl) (snd (main_run tf fl w))
  /\ cores_reported None (snd (main_run tf fl w)) = true
  /\ truthy_str (effective_model_dir fl) = true.
Proof.
  split_and!; [| | apply effective_model_dir_truthy].
  - run_main W.
    all: repeat constructor.
    all: unfold remote_tpu, effective_model_dir;
      destruct (model_dir fl) as [d |]; cbn in *;
      repeat match goal with H : _ = _ |- _ => rewrite H end; done.
  - run_main W.
    all: rewrite ?Z.eqb_refl; reflexivity.
Qed.

(** X5: without a strategy [run_bert_pretrain] reads the BERT configuration
    and then raises [ValueError] 'Distribution strategy is not specified.'
    (or what the read raised); it calls nothing else and leaves the flags
    as they were. *)
Theorem run_bert_pretrain_needs_strategy {W} (tf : TF W) (fl : Flags)
    (w : W) :
  let '(r, s) :=
    run_bert_pretrain (traced tf) None {| flags := fl; world := (w, []) |} in
  flags s = fl
  /\ snd (world s) = [EvBertConfig (bert_config_file fl)]
  /\ match BertConfig_from_json_file tf (bert_config_file fl) w with
     | (Return _, _) =>
         r = Raise (ValueError "Distribution strategy is not specified.")
     | (Raise e, _) => r = Raise e
     end.
Proof.
  unfold run_bert_pretrain, bind, gets, call, raise. cbn. unfold logged. cbn.
  by destruct (BertConfig_from_json_file tf (bert_config_file fl) w)
    as [[config | e] w'].
Qed.
End RunPretrainingRuns.

(** ** The SQuAD benchmarks: the flags of a run *)

Module SquadBenchmarkRuns.
Import SquadBenchmark.
Import SquadBenchmarkFacts.

#[local] Arguments os_path_join : simpl never.
#[local] Arguments Real_run_and_report_benchmark : simpl never.
#[local] Arguments Accuracy_run_and_report_benchmark : simpl never.

(** X6: [_train_squad] and [_evaluate_squad] run under [flagsaver]: whatever
    the training or the prediction did to [FLAGS], and whether the call
    returned or raised, the flags are afterwards what they were before;
    [_train_squad] leaves the benchmark object as it was, and
    [_evaluate_squad] changes it only when it returns, and then only its
    [eval_metrics]. *)
Theorem flagsaver_restores_flags {W} (fw : Framework W) (s : St W) :
  (let '(r, s') := _train_squad fw s in
   flags s' = flags s /\ self s' = self s)
  /\ (let '(r, s') := _evaluate_squad fw s in
      flags s' = flags s
      /\ match r with
         | Return _ =>
             exists f1,
               self s' = {| num_gpus := num_gpus (self s);
                            eval_metrics := Some f1;
                            timer_callback := timer_callback (self s) |}
         | Raise _ => self s' = self s
         end).
Proof.
  unfold_program.
  split; repeat run_step W; split; eauto.
  eexists. f_equal. congruence.
Qed.

(** [calls_saw] over a log in two parts. *)
Lemma calls_saw_app (P : Flags -> Prop) (cb : list handle)
    (l l' : list event) :
  calls_saw P cb l -> calls_saw P cb l' -> calls_saw P cb (l ++ l').
Proof.
  intros Hl Hl'. induction l as [| e l IH]; [exact Hl' |].
  destruct e; cbn in *; intuition.
Qed.

Ltac check_calls :=
  cbn; repeat split; first [ assumption | reflexivity | congruence ].

(** The training, the prediction and the report of a run see the flags
    that the run started with. *)
Lemma Real_run_saw {W} (fw : Framework W) (s : St (W * list event))
    (P : Flags -> Prop) :
  P (flags s) ->
  exists tr,
    log (snd (Real_run_and_report_benchmark (traced fw) s))
    = (log s ++ tr)%list
    /\ calls_saw P (timer_callbacks (self s)) tr
    /\ predictions_scored tr.
Proof.
  intros HP. unfold timer_callbacks. unfold_program.
  repeat run_step W; eexists; (split; [read_any_log |]); check_calls.
Qed.

Lemma Accuracy_run_saw {W} (fw : Framework W) (s : St (W * list event))
    (P : Flags -> Prop) :
  P (flags s) ->
  flags s !! "predict_file" = Some (PyStr SQUAD_PREDICT_FILE) ->
  exists tr,
    log (snd (Accuracy_run_and_report_benchmark (traced fw) s))
    = (log s ++ tr)%list
    /\ calls_saw P (timer_callbacks (self s)) tr
    /\ predictions_scored tr.
Proof.
  intros HP Hfile. unfold timer_callbacks. unfold_program.
  repeat run_step W; eexists; (split; [read_any_log |]); check_calls.
Qed.

Lemma setup_flags_wired (m : method) (base fl : Flags) (dir : string) :
  (forall name, ~ In name (assigned m) -> fl !! name = base !! name) ->
  fl !! "train_data_path" = Some (PyStr SQUAD_TRAIN_DATA_PATH) ->
  fl !! "predict_file" = Some (PyStr SQUAD_PREDICT_FILE) ->
  fl !! "vocab_file" = Some (PyStr SQUAD_VOCAB_FILE) ->
  fl !! "bert_config_file" = Some (PyStr MODEL_CONFIG_FILE_PATH) ->
  fl !! "model_dir" = Some (PyStr dir) ->
  fl !! "train_batch_size" = Some (PyInt (4 * gpus_of m)) ->
  flags_wired m base dir fl.
Proof. unfold flags_wired. intuition. Qed.

Ltac frame_lookup :=
  let name := fresh "name" in
  let Hname := fresh "Hname" in
  intros name Hname; cbn in Hname;
  repeat (rewrite lookup_insert_ne by (intros <-; tauto));
  reflexivity.

(** X7: in every run of a benchmark method, each training, prediction and
    report call sees the flags that the method's set-up left: those of the
    base [_setup] but for the flags the method assigns, with the SQuAD data
    files, the model directory of [_get_model_dir] and a batch size of four
    per GPU; every training call is given exactly the timer callback of the
    set-up; and the call that follows a prediction that returned is always
    a text read of the file that [FLAGS.predict_file] named when the
    prediction was made. *)
Theorem benchmark_calls_see_setup_flags {W} (fw : Framework W) (m : method)
    (s : St W) :
  let tr := log (snd (run_method (traced fw) m (start s))) in
  run_wired m tr /\ predictions_scored tr.
Proof.
  destruct m; unfold_method.
  all: repeat run_call W; try (cbn; tauto).
  all: match goal with
       | a : (Flags * handle)%type |- _ => destruct a as [base timer]
       end; cbn; try tauto.
  all: match goal with
       | |- run_wired ?m _ /\ _ =>
         match goal with
         | |- context [Real_run_and_report_benchmark _ ?s1] =>
           match s1 with
           | context [EvGetModelDir _ (Return ?dir)] =>
               destruct (Real_run_saw fw s1 (flags_wired m base dir))
                 as (tr & -> & Hsaw & Hscored)
           end
         | |- context [Accuracy_run_and_report_benchmark _ ?s1] =>
           match s1 with
           | context [EvGetModelDir _ (Return ?dir)] =>
               destruct (Accuracy_run_saw fw s1 (flags_wired m base dir))
                 as (tr & -> & Hsaw & Hscored)
           end
         end
       end.
  all: try (cbn; by flag_lookup).
  all: try (apply setup_flags_wired; cbn;
            first [ frame_lookup | by flag_lookup ]).
  all: cbn; tauto.
Qed.
End SquadBenchmarkRuns.

(** ** The Keras ImageNet test: command lines and clean-up *)

Module KerasImagenetTestRuns.
Import KerasImagenetTest.
Import KerasImagenetTestFacts.

Lemma model_dir_of_inj (t t' : test) :
  model_dir_of t = model_dir_of t' -> t = t'.
Proof. destruct t, t'; first [ reflexivity | discriminate ]. Qed.

(** What every model run of a test case is given. *)
Lemma test_command_line {W} (fw : Framework W) (t : test) (s : St W) :
  Forall (fun args =>
            flags_suit (required_gpus t) args
            /\ flag_value "-model_dir" args = Some (model_dir_of t))
    (command_lines (log (snd (run_test (traced fw) t (start s))))).
Proof.
  destruct t; unfold_test.
  all: repeat run_call W.
  all: repeat first [ apply Forall_nil_2 | apply Forall_cons_2 ].
  all: unfold flags_suit; cbv beta; split_and!; try reflexivity.
  all: match goal with
       | |- exists own, ?l = (own ++ ?e)%list =>
           exists (take (length l - length e)%nat l); reflexivity
       end.
Qed.

(** X8: every model run of a test case is given a command line that fits
    the GPU count the case checks for: [-num_gpus] is that count (and is
    absent in the cases without distribution strategy), the distribution
    strategy is 'default' (or 'off'), and the line ends with the flags of
    the class, a batch of 4, one training step and synthetic data. *)
Theorem tests_pass_matching_flags {W} (fw : Framework W) (t : test)
    (s : St W) :
  Forall (flags_suit (required_gpus t))
    (command_lines (log (snd (run_test (traced fw) t (start s))))).
Proof.
  eapply Forall_impl; [apply test_command_line |].
  cbn. intros args [Hsuit _]. exact Hsuit.
Qed.

(** X9: no two test cases train into the same model directory: when model
    runs of two cases name the same [-model_dir], the cases are the same,
    on whatever machines and instances they ran. *)
Theorem tests_use_distinct_model_dirs {W V} (fw : Framework W)
    (fv : Framework V) (t t' : test) (s : St W) (s' : St V)
    (args args' : list string) :
  In args (command_lines (log (snd (run_test (traced fw) t (start s))))) ->
  In args' (command_lines (log (snd (run_test (traced fv) t' (start s'))))) ->
  flag_value "-model_dir" args = flag_value "-model_dir" args' ->
  t = t'.
Proof.
  intros Hin Hin' Hsame.
  pose proof (test_command_line fw t s) as Hall.
  pose proof (test_command_line fv t' s') as Hall'.
  rewrite List.Forall_forall in Hall, Hall'.
  destruct (Hall _ Hin) as [_ Hdir].
  destruct (Hall' _ Hin') as [_ Hdir'].
  apply model_dir_of_inj. congruence.
Qed.

Lemma tests_use_distinct_model_dirs_witness :
  let args :=
    ["-num_gpus"; "1"; "-enable_eager"; "false";
     "-distribution_strategy"; "default";
     "-model_dir"; "keras_imagenet_graph_1_gpu";
     "-data_format"; "channels_last";
     "-batch_size"; "4"; "-train_steps"; "1";
     "-use_synthetic_data"; "true"] in
  In args
    (command_lines
       (log (snd (run_test (traced (double 1)) graph_1_gpu
                    (start fresh_instance)))))
  /\ graph_1_gpu = graph_1_gpu.
Proof.
  cbv zeta.
  assert (In ["-num_gpus"; "1"; "-enable_eager"; "false";
              "-distribution_strategy"; "default";
              "-model_dir"; "keras_imagenet_graph_1_gpu";
              "-data_format"; "channels_last";
              "-batch_size"; "4"; "-train_steps"; "1";
              "-use_synthetic_data"; "true"]
            (command_lines
               (log (snd (run_test (traced (double 1)) graph_1_gpu
                            (start fresh_instance)))))) as Hin.
  { vm_compute. left. reflexivity. }
  split; [exact Hin |].
  exact (tests_use_distinct_model_dirs (double 1) (double 1) graph_1_gpu
           graph_1_gpu fresh_instance fresh_instance _ _ Hin Hin eq_refl).
Defined.

(** X10: a test case reads the GPU count at most twice: once when the count
    suffices, and twice when it does not; it is then skipped with the
    message that names the required count and the count of the second
    reading. *)
Theorem gpu_count_is_read_for_the_check {W} (fw : Framework W) (t : test)
    (s : St W) :
  let run := run_test (traced fw) t (start s) in
  gpu_check (required_gpus t) (gpu_counts (log (snd run))) (fst run).
Proof.
  destruct t; unfold_test.
  all: repeat run_call W.
  all: repeat match goal with
              | H : (_ <? _) = false |- _ => apply Z.ltb_ge in H
              | H : (_ <? _) = true |- _ => apply Z.ltb_lt in H
              end.
  all: first [ exact I | assumption | by split ].
Qed.

(** X11: a test case runs the model at most once and calls nothing after it:
    when the model was run, the result of the run, returned or raised, is the
    result of the test. *)
Theorem model_run_decides_the_test {W} (fw : Framework W) (t : test)
    (s : St W) :
  let run := run_test (traced fw) t (start s) in
  let tr := log (snd run) in
  run_is_last tr = true
  /\ (model_runs tr <= 1)%nat
  /\ (forall root args r,
        last tr = Some (EvRunSynthetic root args r) -> fst run = r).
Proof.
  destruct t; unfold_test.
  all: repeat run_call W.
  all: split_and!; [ reflexivity | lia | intros root args r0 [=]; by subst ].
Qed.

Lemma model_run_decides_the_test_witness :
  fst (run_test (traced (double 1)) one_gpu (start fresh_instance))
  = Return tt.
Proof.
  refine (proj2 (proj2 (model_run_decides_the_test (double 1) one_gpu
                          fresh_instance))
            "/tmp/test/tmp0"
            ["-num_gpus"; "1"; "-distribution_strategy"; "default";
             "-model_dir"; "keras_imagenet_1_gpu";
             "-data_format"; "channels_last";
             "-batch_size"; "4"; "-train_steps"; "1";
             "-use_synthetic_data"; "true"]
            (Return tt) _).
  vm_compute. reflexivity.
Defined.

(** X12: the command line and the execution mode agree: a test case that
    never enables eager execution passes [-enable_eager false] to every
    model run, and a test case that enables it does so once, as its second
    call, with the configuration that [get_config_proto_v1] just returned,
    and passes no [-enable_eager] flag. *)
Theorem eager_flag_matches_eager_call {W} (fw : Framework W) (t : test)
    (s : St W) :
  let tr := log (snd (run_test (traced fw) t (start s))) in
  (eager_calls tr = []
   /\ Forall (fun args => flag_value "-enable_eager" args = Some "false")
        (command_lines tr))
  \/ (exists config r,
        take 2 tr = [EvConfigProto (Return config); EvEnableEager config r]
        /\ eager_calls tr = [config]
        /\ Forall (fun args => flag_value "-enable_eager" args = None)
             (command_lines tr)).
Proof.
  destruct t; unfold_test.
  all: repeat run_call W.
  all: first [ left; split; [reflexivity | by repeat first [ apply Forall_nil_2 | apply Forall_cons_2 ]]
             | right; do 2 eexists; split_and!;
               [reflexivity | reflexivity | by repeat first [ apply Forall_nil_2 | apply Forall_cons_2 ]] ].
Qed.

(** [run_roots] over a log in two parts. *)
Lemma run_roots_app (l l' : list event) :
  run_roots (l ++ l') = (run_roots l ++ run_roots l')%list.
Proof.
  induction l as [| e l IH]; [reflexivity |].
  destruct e; cbn; by rewrite ?IH.
Qed.

Section Lifecycle.

Context {W : Type} (fw : Framework W).

Hypothesis mkdtemp_names_directory :
  forall parent w path w',
    mkdtemp fw parent w = (Return path, w') -> truthy_str path = true.

(** What a test method leaves behind on a new instance: nothing made and
    nothing cached, or one directory, which is cached and is the root of
    the model run. *)
Lemma test_leaves (t : test) (s : St W) :
  _tempdir s = None ->
  let s1 := snd (run_test (traced fw) t (start s)) in
  removed (log s1) = []
  /\ ((_tempdir s1 = None /\ created (log s1) = []
       /\ run_roots (log s1) = [])
      \/ (exists path,
            _tempdir s1 = Some path /\ truthy_str path = true
            /\ created (log s1) = [path]
            /\ Forall (eq path) (run_roots (log s1)))).
Proof.
  intros Hfresh.
  destruct t; unfold_test; rewrite ?Hfresh; cbn.
  all: repeat run_call W.
  all: split; [reflexivity |].
  all: first
    [ left; by split_and!
    | right; eexists; split_and!;
      [ reflexivity
      | eapply mkdtemp_names_directory; eassumption
      | reflexivity
      | by repeat first [ apply Forall_nil_2 | apply Forall_cons_2 ] ] ].
Qed.

(** What a returning [tearDown] adds to the log. *)
Lemma tearDown_log (s s2 : St (W * list event)) :
  tearDown (traced fw) s = (Return tt, s2) ->
  (exists path,
     _tempdir s = Some path /\ truthy_str path = true
     /\ _tempdir s2 = Some path
     /\ log s2 = (log s ++ [EvSuperTearDown (Return tt);
                            EvRmtree path (Return tt)])%list)
  \/ (truthy_opt_str (_tempdir s) = false
      /\ exists root path,
           _tempdir s2 = Some path
           /\ log s2 = (log s ++ [EvSuperTearDown (Return tt);
                                  EvGetTempDir (Return root);
                                  EvMkdtemp root (Return path);
                                  EvRmtree path (Return tt)])%list).
Proof.
  unfold tearDown, get_temp_dir, bind, call, gets, modify, ret, raise, log.
  cbn. unfold logged_result. cbn.
  repeat run_call W; intros Hrun; inversion Hrun; subst; clear Hrun; cbn.
  all: repeat match goal with
              | u : unit |- _ => destruct u
              end.
  - right. split; [by apply negb_true_iff |].
    do 2 eexists. split; [reflexivity |]. by rewrite <- !app_assoc.
  - left. eexists. split_and!; [reflexivity | | reflexivity |].
    + match goal with
      | H : negb _ = false |- _ => apply negb_false_iff in H; exact H
      end.
    + by rewrite <- !app_assoc.
Qed.

(** X13: a test method on a new instance followed by a [tearDown] that
    returns (the test may have returned, raised or been skipped) leaves
    nothing behind: exactly one temporary directory was made, [rmtree] was
    called exactly once, on that directory, and every model run had that
    directory as its root. *)
Theorem test_then_tearDown_cleans_up (t : test) (s : St W)
    (s2 : St (W * list event)) :
  _tempdir s = None ->
  tearDown (traced fw) (snd (run_test (traced fw) t (start s)))
  = (Return tt, s2) ->
  exists path,
    _tempdir s2 = Some path
    /\ created (log s2) = [path]
    /\ removed (log s2) = [path]
    /\ Forall (eq path) (run_roots (log s2)).
Proof.
  intros Hfresh Hdown.
  destruct (test_leaves t s Hfresh)
    as [Hnone [(Hdir & Hmade & Hruns) | (path & Hdir & Hpath & Hmade & Hruns)]].
  - destruct (tearDown_log _ _ Hdown)
      as [(path & Hsome & _) | (_ & root & path & Hdir2 & Hlog)];
      [congruence |].
    exists path.
    rewrite Hlog, created_app, removed_app, run_roots_app, Hmade, Hnone,
      Hruns.
    by split_and!.
  - destruct (tearDown_log _ _ Hdown)
      as [(path' & Hsome & _ & Hdir2 & Hlog) | (Hfalsy & _)].
    + assert (path' = path) as -> by congruence.
      exists path.
      rewrite Hlog, created_app, removed_app, run_roots_app, Hmade, Hnone.
      cbn. rewrite app_nil_r. by split_and!.
    + rewrite Hdir in Hfalsy. cbn in Hfalsy. congruence.
Qed.

End Lifecycle.

Lemma test_then_tearDown_cleans_up_witness :
  ltac:(match type of
          (test_then_tearDown_cleans_up (double 2)
             (double_names_directory 2) two_gpu fresh_instance
             (snd (tearDown (traced (double 2))
                     (snd (run_test (traced (double 2)) two_gpu
                             (start fresh_instance))))))
        with
        | _ -> _ -> ?conclusion => exact conclusion
        end).
Proof.
  refine (test_then_tearDown_cleans_up (double 2)
            (double_names_directory 2) two_gpu fresh_instance _ eq_refl _).
  vm_compute. reflexivity.
Defined.

End KerasImagenetTestRuns.
